(** * Glypto: the provider resolution engine

    A shallow embedding of the TypeScript sources of glypto
    (provider-registry.ts, metadata.ts, scraper.ts and the five providers)
    and the properties of its specification that concern them.

    Conventions of the embedding.
    - A JavaScript string is a [string]; every [ascii] stands for one code
      unit (the code units 0..255).
    - [null] and [undefined] are [None]; a value that may be absent is an
      [option].
    - A [number] used as a priority is a rational [Q]: every finite double
      is one, and the sign of [a - b] on finite doubles is the sign of the
      exact difference.  NaN priorities are outside the model.
    - [Map<string, string[]>] and the [ProviderData] object are [gmap]s on
      their own keys. *)

From Stdlib Require Import Ascii String QArith Lqa.
From stdpp Require Import base option list sorting strings gmap.

Local Open Scope string_scope.

(** ** JavaScript primitives used by the sources *)

Module Js.

(** WhiteSpace and LineTerminator code units below 256, as [trim] sees
    them: TAB, LF, VT, FF, CR, SP and NBSP. *)
Definition isWhiteSpace (c : ascii) : bool :=
  let n := nat_of_ascii c in
  ((9 <=? n)%nat && (n <=? 13)%nat) || (n =? 32)%nat || (n =? 160)%nat.

Fixpoint trimStart (s : string) : string :=
  match s with
  | EmptyString => EmptyString
  | String c s' => if isWhiteSpace c then trimStart s' else s
  end.

Fixpoint trimEnd (s : string) : string :=
  match s with
  | EmptyString => EmptyString
  | String c s' =>
      match trimEnd s' with
      | EmptyString => if isWhiteSpace c then EmptyString else String c EmptyString
      | t => String c t
      end
  end.

(** [String.prototype.trim] *)
Definition trim (s : string) : string := trimEnd (trimStart s).

Definition toLowerCaseUnit (c : ascii) : ascii :=
  let n := nat_of_ascii c in
  if ((65 <=? n)%nat && (n <=? 90)%nat)
     || ((192 <=? n)%nat && (n <=? 222)%nat && negb (n =? 215)%nat)
  then ascii_of_nat (n + 32) else c.

(** [String.prototype.toLowerCase] *)
Fixpoint toLowerCase (s : string) : string :=
  match s with
  | EmptyString => EmptyString
  | String c s' => String (toLowerCaseUnit c) (toLowerCase s')
  end.

(** [s.startsWith(p)] *)
Definition startsWith (s p : string) : bool := String.prefix p s.

(** [s.slice(n)] for a start index [n >= 0]: the code units from index
    [n] on, the empty string when [s] is shorter. *)
Fixpoint slice (n : nat) (s : string) : string :=
  match n, s with
  | O, _ => s
  | S _, EmptyString => EmptyString
  | S n', String _ s' => slice n' s'
  end.

(** Truthiness of a [string | null]: [null] and [""] are falsy. *)
Definition truthy (o : option string) : bool :=
  match o with
  | Some (String _ _) => true
  | _ => false
  end.

(** [a || b] on [string | null] operands. *)
Definition or (a b : option string) : option string :=
  if truthy a then a else b.

(** [a || d] where [d] is a string literal: always a string. *)
Definition or_lit (a : option string) (d : string) : string :=
  match a with
  | Some (String c s) => String c s
  | _ => d
  end.

(** [o?.startsWith(p)]: [undefined] when [o] is [null]. *)
Definition startsWith_opt (o : option string) (p : string) : option bool :=
  (fun s => startsWith s p) <$> o.

(** Truthiness of a [boolean | undefined]. *)
Definition truthyb (o : option bool) : bool := default false o.

(** [a || b] on [boolean | undefined] operands. *)
Definition orb_opt (a b : option bool) : option bool :=
  if truthyb a then a else b.

(** [a ?? d] *)
Definition nullish {A} (a : option A) (d : A) : A := default d a.

(** [values && values.length > 0 ? values[0] : undefined] on the result
    of a [Map.get]. *)
Definition firstOf (values : option (list string)) : option string :=
  match values with
  | Some (v :: _) => Some v
  | _ => None
  end.


(** ASCII lower case, as an attribute selector of an HTML document compares
    the values of the attributes it treats without regard to case. *)
Definition asciiLowerCaseUnit (c : ascii) : ascii :=
  let n := nat_of_ascii c in
  if (65 <=? n)%nat && (n <=? 90)%nat then ascii_of_nat (n + 32) else c.

Fixpoint asciiLowerCase (s : string) : string :=
  match s with
  | EmptyString => EmptyString
  | String c s' => String (asciiLowerCaseUnit c) (asciiLowerCase s')
  end.

End Js.

(** ** Markup nodes (the DOM collaborator, read only) *)

Record Element := mkElement {
  tagName : option string;
  attributes : list (string * string);
  textContent : option string
}.

Fixpoint lookupAttribute (attrs : list (string * string)) (n : string) : option string :=
  match attrs with
  | [] => None
  | (k, v) :: rest => if String.eqb k n then Some v else lookupAttribute rest n
  end.

(** [element.getAttribute(n)]: [null] when the attribute is absent. *)
Definition getAttribute (element : Element) (n : string) : option string :=
  lookupAttribute (attributes element) n.

(** [element.tagName?.toLowerCase()] *)
Definition lowerTagName (element : Element) : option string :=
  Js.toLowerCase <$> tagName element.

Definition tagIs (element : Element) (t : string) : bool :=
  match lowerTagName element with
  | Some s => String.eqb s t
  | None => false
  end.

(** ** types.ts *)

Record KeyValue := mkKeyValue { key : string; value : string }.

Record MetadataProvider := mkProvider {
  name : string;
  priority : Q;
  canHandle : Element -> bool;
  scrape : Element -> option KeyValue;
  getValue : string -> gmap string (list string) -> option string
}.

Record Feed := mkFeed {
  feed_title : option string;
  feed_type : string;
  feed_href : string
}.

(** ** providers/open-graph-provider.ts *)

Module OpenGraphProvider.

Definition canHandle (element : Element) : bool :=
  let property := getAttribute element "property" in
  let name := getAttribute element "name" in
  Js.nullish
    (Js.orb_opt (Js.startsWith_opt property "og:") (Js.startsWith_opt name "og:"))
    false.

Definition scrape (element : Element) : option KeyValue :=
  let property := Js.or (getAttribute element "property") (getAttribute element "name") in
  let content := getAttribute element "content" in
  if negb (Js.truthy property) || negb (Js.truthy content) || negb (canHandle element)
  then None
  else
    match property, content with
    | Some property, Some content =>
        let key := Js.slice 3 property in
        Some {| key := key; value := content |}
    | _, _ => None
    end.

Definition getValue (key : string) (data : gmap string (list string)) : option string :=
  Js.firstOf (data !! key).

Definition new : MetadataProvider :=
  mkProvider "openGraph" 1 canHandle scrape getValue.

End OpenGraphProvider.

(** ** providers/twitter-provider.ts *)

Module TwitterProvider.

Definition canHandle (element : Element) : bool :=
  let property := getAttribute element "property" in
  let name := getAttribute element "name" in
  Js.nullish
    (Js.orb_opt (Js.startsWith_opt property "twitter:")
                (Js.startsWith_opt name "twitter:"))
    false.

Definition scrape (element : Element) : option KeyValue :=
  let property := Js.or (getAttribute element "property") (getAttribute element "name") in
  let content := getAttribute element "content" in
  if negb (Js.truthy property) || negb (Js.truthy content) || negb (canHandle element)
  then None
  else
    match property, content with
    | Some property, Some content =>
        let key := Js.slice 8 property in
        Some {| key := key; value := content |}
    | _, _ => None
    end.

Definition getValue (key : string) (data : gmap string (list string)) : option string :=
  Js.firstOf (data !! key).

Definition new : MetadataProvider :=
  mkProvider "twitter" 2 canHandle scrape getValue.

End TwitterProvider.

(** ** providers/standard-meta-provider.ts *)

Module StandardMetaProvider.

Definition canHandle (element : Element) : bool :=
  let property := getAttribute element "property" in
  let name := getAttribute element "name" in
  let content := getAttribute element "content" in
  Js.truthy content
  && Js.truthy (Js.or name property)
  && negb (Js.truthyb (Js.startsWith_opt name "og:"))
  && negb (Js.truthyb (Js.startsWith_opt name "twitter:"))
  && negb (Js.truthyb (Js.startsWith_opt property "og:"))
  && negb (Js.truthyb (Js.startsWith_opt property "twitter:")).

Definition scrape (element : Element) : option KeyValue :=
  let name := Js.or (getAttribute element "name") (getAttribute element "property") in
  let content := getAttribute element "content" in
  if negb (Js.truthy name) || negb (Js.truthy content) || negb (canHandle element)
  then None
  else
    match name, content with
    | Some name, Some content => Some {| key := name; value := content |}
    | _, _ => None
    end.

Definition getValue (key : string) (data : gmap string (list string)) : option string :=
  Js.firstOf (data !! key).

Definition new : MetadataProvider :=
  mkProvider "meta" 3 canHandle scrape getValue.

End StandardMetaProvider.

(** ** providers/other-elements-provider.ts *)

Module OtherElementsProvider.

Definition canHandle (element : Element) : bool :=
  tagIs element "title"
  || tagIs element "h1"
  || (tagIs element "link" && Js.truthy (getAttribute element "rel")).

Definition scrape (element : Element) : option KeyValue :=
  if tagIs element "title" && Js.truthy (textContent element)
  then (fun text => {| key := "title"; value := Js.trim text |}) <$> textContent element
  else if tagIs element "h1" && Js.truthy (textContent element)
  then (fun text => {| key := "firstHeading"; value := Js.trim text |}) <$> textContent element
  else if tagIs element "link"
  then
    let rel := getAttribute element "rel" in
    let href := getAttribute element "href" in
    match rel, href with
    | Some r, Some h =>
        if Js.truthy rel && Js.truthy href
        then
          if String.eqb r "icon" then Some {| key := "icon"; value := h |}
          else if String.eqb r "shortcut icon"
               then Some {| key := "shortcut icon"; value := h |}
               else None
        else None
    | _, _ => None
    end
  else None.

Definition getValue (key : string) (data : gmap string (list string)) : option string :=
  Js.firstOf (data !! key).

Definition new : MetadataProvider :=
  mkProvider "other" 4 canHandle scrape getValue.

End OtherElementsProvider.

(** ** Thrown failures *)

Inductive JsError :=
| TypeError (message : string)
| SyntaxError (message : string).

(** A computation that returns a value or throws. *)
Definition Exc (A : Type) : Type := JsError + A.

Definition ret {A} (a : A) : Exc A := inr a.
Definition throw {A} (err : JsError) : Exc A := inl err.

Definition bind {A B} (m : Exc A) (k : A -> Exc B) : Exc B :=
  match m with
  | inl err => inl err
  | inr a => k a
  end.

(** [try { body } catch { handler }] *)
Definition try_catch {A} (body : Exc A) (handler : JsError -> A) : A :=
  match body with
  | inl err => handler err
  | inr a => a
  end.

Notation "'let*' x ':=' m 'in' k" := (bind m (fun x => k))
  (at level 10, x name, m at level 100, k at level 200).

(** ** providers/json-ld-provider.ts *)

(** The values [JSON.parse] produces. *)
#[warnings="-register-all"]
Inductive Json :=
| JNull
| JBool (b : bool)
| JNumber (q : Q)
| JString (s : string)
| JArray (items : list Json)
| JObject (members : list (string * Json)).

(** The result of reading a property: [undefined] or a parsed value. *)
Inductive JsValue :=
| Undefined
| Parsed (j : Json).

Module JsonLdProvider.

Fixpoint lookupMember (members : list (string * Json)) (k : string) : JsValue :=
  match members with
  | [] => Undefined
  | (k', v) :: rest => if String.eqb k' k then Parsed v else lookupMember rest k
  end.

(** [v[k]] for the keys the provider reads: reading a property of [null]
    or [undefined] throws a TypeError, an object yields its member, and
    a boolean, number, string or array has none of these keys. *)
Definition getProperty (v : JsValue) (k : string) : Exc JsValue :=
  match v with
  | Undefined => throw (TypeError "Cannot read properties of undefined")
  | Parsed JNull => throw (TypeError "Cannot read properties of null")
  | Parsed (JObject members) => ret (lookupMember members k)
  | Parsed _ => ret Undefined
  end.

Definition truthy (v : JsValue) : bool :=
  match v with
  | Undefined => false
  | Parsed JNull => false
  | Parsed (JBool b) => b
  | Parsed (JNumber q) => negb (Qeq_bool q 0)
  | Parsed (JString s) => negb (String.eqb s "")
  | Parsed (JArray _) => true
  | Parsed (JObject _) => true
  end.

(** [v === s] for a string literal [s] *)
Definition strictEqualsString (v : JsValue) (s : string) : bool :=
  match v with
  | Parsed (JString s') => String.eqb s' s
  | _ => false
  end.

Section WithJSON.

(** [JSON.parse]: [None] stands for the SyntaxError it throws. *)
Variable JSON_parse : string -> option Json.

(** The declared type of an extracted value is [string]; a truthy member
    of another type is stored as it is by the program, and carried here
    by [carry], about which nothing is supposed. *)
Variable carry : Json -> string.

Definition asValue (v : JsValue) : string :=
  match v with
  | Parsed (JString s) => s
  | Parsed j => carry j
  | Undefined => ""
  end.

Definition parse (content : string) : Exc JsValue :=
  match JSON_parse content with
  | Some j => ret (Parsed j)
  | None => throw (SyntaxError "Unexpected token")
  end.

Definition canHandle (element : Element) : bool :=
  tagIs element "script"
  && match getAttribute element "type" with
     | Some t => String.eqb t "application/ld+json"
     | None => false
     end.

(** The three fields read from an Article or WebPage, in order. *)
Definition scrape_fields (jsonData : JsValue) : Exc (option KeyValue) :=
  let* headline := getProperty jsonData "headline" in
  if truthy headline
  then ret (Some {| key := "title"; value := asValue headline |})
  else
    let* description := getProperty jsonData "description" in
    if truthy description
    then ret (Some {| key := "description"; value := asValue description |})
    else
      let* image := getProperty jsonData "image" in
      if truthy image
      then
        let* url := getProperty image "url" in
        if truthy url
        then ret (Some {| key := "image"; value := asValue url |})
        else ret None
      else ret None.

(** The body of the [try] block; a final [ret None] stands for falling
    out of the block to the last [return null]. *)
Definition scrape_try (element : Element) : Exc (option KeyValue) :=
  let content := textContent element in
  if negb (Js.truthy content) then ret None
  else
    let* jsonData := parse (default "" content) in
    let* type1 := getProperty jsonData "@type" in
    if strictEqualsString type1 "Article"
    then scrape_fields jsonData
    else
      let* type2 := getProperty jsonData "@type" in
      if strictEqualsString type2 "WebPage"
      then scrape_fields jsonData
      else ret None.

Definition scrape (element : Element) : option KeyValue :=
  try_catch (scrape_try element) (fun _ => None).

Definition getValue (key : string) (data : gmap string (list string)) : option string :=
  Js.firstOf (data !! key).

Definition new : MetadataProvider :=
  mkProvider "jsonLd" (1 # 2) canHandle scrape getValue.

End WithJSON.

End JsonLdProvider.

(** ** Array.prototype.sort

    The sort is stable, and a comparator that orders by a key is a
    consistent one, for which the sorted array is determined: the stable
    arrangement by ascending key ([sort_unique] below).  It is computed here
    by insertion, each element going behind every earlier element that does
    not compare greater. *)

Module JsArray.

Section Sort.

Context {A : Type}.
Variable compareFn : A -> A -> Q.

(** [compareFn a b > 0]: [a] belongs after [b]. *)
Definition after (a b : A) : bool := negb (Qle_bool (compareFn a b) 0).

Fixpoint insertSorted (x : A) (sorted : list A) : list A :=
  match sorted with
  | [] => [x]
  | y :: rest => if after y x then x :: y :: rest else y :: insertSorted x rest
  end.

Definition sort (l : list A) : list A :=
  foldl (fun acc x => insertSorted x acc) [] l.

End Sort.

End JsArray.

(** ** The [ProviderData] object

    [ProviderData] is a plain object whose values are Maps.  The [gmap]
    holds its own properties and, under the key [__proto__], the Map an
    assignment to [__proto__] has installed as its prototype (the setter of
    [Object.prototype] creates no own property).  A property read goes on,
    past the own properties, to what the object inherits: the members of
    [Object.prototype], and those of [Map.prototype] once a Map is
    installed (ECMAScript 2024), among which [size] is an accessor with a
    getter only, which throws on a receiver that is no Map.  ECMAScript
    fixes the class of the errors the engine raises, TypeError; their
    messages are worded as V8 words them. *)

Abbreviation ProviderData := (gmap string (gmap string (list string))).

Module JsObject.

Definition objectMembers : list string :=
  ["constructor"; "__defineGetter__"; "__defineSetter__"; "hasOwnProperty";
   "__lookupGetter__"; "__lookupSetter__"; "isPrototypeOf"; "propertyIsEnumerable";
   "toString"; "valueOf"; "__proto__"; "toLocaleString"].

(** The function-valued members of [Map.prototype]. *)
Definition mapMembers : list string :=
  ["constructor"; "get"; "set"; "has"; "delete"; "clear"; "entries"; "forEach";
   "keys"; "values"].

Definition member (n : string) (l : list string) : bool :=
  existsb (String.eqb n) l.

(** A Map has been installed as the prototype. *)
Definition installed (o : ProviderData) : bool :=
  match o !! "__proto__" with
  | Some _ => true
  | None => false
  end.

(** What a read yields: a Map; a truthy value that is no Map (an inherited
    function, or [Object.prototype] itself for [__proto__]); [undefined]. *)
Inductive Read :=
| IsMap (data : gmap string (list string))
| NotMap
| Missing.

(** [o[n]] *)
Definition get (o : ProviderData) (n : string) : Exc Read :=
  match o !! n with
  | Some data => ret (IsMap data)
  | None =>
      if installed o && String.eqb n "size"
      then throw (TypeError "Method get Map.prototype.size called on incompatible receiver")
      else if (installed o && member n mapMembers) || member n objectMembers
           then ret NotMap
           else ret Missing
  end.

(** [o[n] = data], in strict code: an own property is written, or created
    over an inherited data property; [__proto__] installs the Map; an
    inherited accessor without a setter makes the assignment throw. *)
Definition set (o : ProviderData) (n : string) (data : gmap string (list string))
  : Exc ProviderData :=
  match o !! n with
  | Some _ => ret (<[n := data]> o)
  | None =>
      if installed o && String.eqb n "size"
      then throw (TypeError "Cannot set property size of #<Map> which has only a getter")
      else ret (<[n := data]> o)
  end.

End JsObject.

(** ** provider-registry.ts *)

Module ProviderRegistry.

Record t := mk { providers : list MetadataProvider }.

(** [(a, b) => a.priority - b.priority] *)
Definition byPriority (a b : MetadataProvider) : Q :=
  (priority a - priority b)%Q.

Definition registerProvider (this : t) (provider : MetadataProvider) : t :=
  let pushed := (providers this ++ [provider])%list in
  {| providers := JsArray.sort byPriority pushed |}.

(** The constructor: [providers.forEach(p => this.registerProvider(p))]. *)
Definition new (initial : list MetadataProvider) : t :=
  foldl registerProvider {| providers := [] |} initial.

Definition getProviders (this : t) : list MetadataProvider := providers this.

Definition getProvider (this : t) (n : string) : option MetadataProvider :=
  List.find (fun p => String.eqb (name p) n) (providers this).

Fixpoint scrapeLoop (ps : list MetadataProvider) (element : Element)
  : option (MetadataProvider * KeyValue) :=
  match ps with
  | [] => None
  | provider :: rest =>
      if canHandle provider element
      then
        match scrape provider element with
        | Some data => Some (provider, data)
        | None => scrapeLoop rest element
        end
      else scrapeLoop rest element
  end.

Definition scrapeFromElement (this : t) (element : Element)
  : option (MetadataProvider * KeyValue) :=
  scrapeLoop (providers this) element.

(** The loop of [resolveValue].  [data] is truthy when it is a Map and when
    it is an inherited member; [getValue], declared on Maps, is then handed
    a value that is no Map, on which the [data.get(key)] of every
    [getValue] of the sources throws a TypeError. *)
Fixpoint resolveLoop (ps : list MetadataProvider) (key : string)
  (providerData : ProviderData) : Exc (option string) :=
  match ps with
  | [] => ret None
  | provider :: rest =>
      match JsObject.get providerData (name provider) with
      | inl err => throw err
      | inr (JsObject.IsMap data) =>
          let value := getValue provider key data in
          if Js.truthy value then ret value else resolveLoop rest key providerData
      | inr JsObject.NotMap => throw (TypeError "data.get is not a function")
      | inr JsObject.Missing => resolveLoop rest key providerData
      end
  end.

Definition resolveValue (this : t) (key : string) (providerData : ProviderData)
  : Exc (option string) :=
  resolveLoop (providers this) key providerData.

End ProviderRegistry.

(** ** metadata.ts *)

Module Metadata.

Record t := mk {
  providerData : ProviderData;
  registry : ProviderRegistry.t;
  feeds : list Feed
}.

(** The loop of the constructor:
    [this.providerData[provider.name] = new Map()]. *)
Fixpoint seed (ps : list MetadataProvider) (pd : ProviderData) : Exc ProviderData :=
  match ps with
  | [] => ret pd
  | provider :: rest =>
      match JsObject.set pd (name provider) ∅ with
      | inl err => throw err
      | inr pd' => seed rest pd'
      end
  end.

Definition new (registry : option ProviderRegistry.t) : Exc t :=
  let registry := default (ProviderRegistry.new []) registry in
  let* pd := seed (ProviderRegistry.getProviders registry) ∅ in
  ret {| providerData := pd; registry := registry; feeds := [] |}.

Definition addData (this : t) (providerName key value : string) : Exc t :=
  let* current := JsObject.get (providerData this) providerName in
  let* pd :=
    match current with
    | JsObject.Missing => JsObject.set (providerData this) providerName ∅
    | _ => ret (providerData this)
    end in
  let* data := JsObject.get pd providerName in
  match data with
  | JsObject.IsMap data =>
      let data :=
        match data !! key with
        | Some _ => data
        | None => <[key := []]> data
        end in
      let data := <[key := (default [] (data !! key) ++ [value])%list]> data in
      ret {| providerData := <[providerName := data]> pd;
             registry := registry this;
             feeds := feeds this |}
  | _ => throw (TypeError "data.has is not a function")
  end.

Definition resolveValue (this : t) (key : string) : Exc (option string) :=
  ProviderRegistry.resolveValue (registry this) key (providerData this).

(** [a || b]: [b] is evaluated when [a] is falsy. *)
Definition orElse (a : Exc (option string)) (b : Exc (option string))
  : Exc (option string) :=
  let* value := a in
  if Js.truthy value then ret value else b.

Definition favicon (this : t) : Exc string :=
  let* value :=
    orElse (resolveValue this "icon") (resolveValue this "shortcut icon") in
  ret (Js.or_lit value "/favicon.ico").

Definition title (this : t) : Exc (option string) :=
  orElse (resolveValue this "title") (resolveValue this "firstHeading").

Definition description (this : t) : Exc (option string) :=
  resolveValue this "description".
Definition image (this : t) : Exc (option string) := resolveValue this "image".
Definition url (this : t) : Exc (option string) := resolveValue this "url".

Definition siteName (this : t) : Exc (option string) :=
  orElse (resolveValue this "site_name") (resolveValue this "site").

(** [this.providerData[n] || new Map()], for a name no object inherits. *)
Definition namespace (this : t) (n : string) : gmap string (list string) :=
  default ∅ (providerData this !! n).

Definition openGraph (this : t) := namespace this "openGraph".
Definition twitterCard (this : t) := namespace this "twitter".
Definition meta (this : t) := namespace this "meta".
Definition other (this : t) := namespace this "other".

Definition pushFeed (this : t) (feed : Feed) : t :=
  {| providerData := providerData this;
     registry := registry this;
     feeds := (feeds this ++ [feed])%list |}.

End Metadata.

(** ** The document source

    The DOM is a collaborator of the program.  A document is the list of
    its elements in tree order; an element exposes its tag name, compared
    without regard to case, its attributes, an absent attribute being
    distinct from an empty one, and its text.  The two query functions
    answer the five selectors the scraper uses; in an HTML document the
    value of [rel] in an attribute selector is compared without regard to
    ASCII case. *)

Record Document := mkDocument { elements : list Element }.

Inductive Selector :=
| SelMeta            (* "meta" *)
| SelTitle           (* "title" *)
| SelH1              (* "h1" *)
| SelLinkRel         (* "link[rel]" *)
| SelLinkAlternate.  (* "link[rel='alternate']" *)

Definition matches (sel : Selector) (element : Element) : bool :=
  match sel with
  | SelMeta => tagIs element "meta"
  | SelTitle => tagIs element "title"
  | SelH1 => tagIs element "h1"
  | SelLinkRel =>
      tagIs element "link"
      && match getAttribute element "rel" with Some _ => true | None => false end
  | SelLinkAlternate =>
      tagIs element "link"
      && match getAttribute element "rel" with
         | Some r => String.eqb (Js.asciiLowerCase r) "alternate"
         | None => false
         end
  end.

Definition querySelectorAll (document : Document) (sel : Selector) : list Element :=
  List.filter (matches sel) (elements document).

Definition querySelector (document : Document) (sel : Selector) : option Element :=
  head (querySelectorAll document sel).

(** What [Scraper.scrape] may be handed at run time. *)
Inductive JsInput :=
| InNullish                   (* null, undefined *)
| InNotQueryable              (* a truthy value without a querySelectorAll function *)
| InSelectAllOnly (d : Document)
    (* an object whose querySelectorAll answers as that of [d] and which
       has no querySelector function *)
| InDocument (d : Document).

Definition inputTruthy (input : JsInput) : bool :=
  match input with
  | InNullish => false
  | _ => true
  end.

(** [typeof document.querySelectorAll === "function"] *)
Definition hasQuerySelectorAll (input : JsInput) : bool :=
  match input with
  | InDocument _ | InSelectAllOnly _ => true
  | _ => false
  end.

(** [typeof document.querySelector === "function"] *)
Definition hasQuerySelector (input : JsInput) : bool :=
  match input with
  | InDocument _ => true
  | _ => false
  end.

(** The elements the object answers its queries from. *)
Definition inputDocument (input : JsInput) : Document :=
  match input with
  | InDocument d | InSelectAllOnly d => d
  | _ => mkDocument []
  end.

(** ** scraper.ts *)

Module Scraper.

(** The fields of the class while [scrape] runs, and the selectors handed
    to the document so far (a ghost field). *)
Record t := mk {
  registry : ProviderRegistry.t;
  document : JsInput;
  result : Metadata.t;
  queries : list Selector
}.

(** A run of the phases: still running, or thrown out of, with the
    selectors handed to the document until then. *)
Inductive Run :=
| Running (this : t)
| Thrown (err : JsError) (asked : list Selector).

Definition andThen (r : Run) (phase : t -> Run) : Run :=
  match r with
  | Running this => phase this
  | Thrown err asked => Thrown err asked
  end.

Definition withResult (this : t) (r : Metadata.t) : t :=
  {| registry := registry this; document := document this;
     result := r; queries := queries this |}.

Definition asked (this : t) (sel : Selector) : t :=
  {| registry := registry this; document := document this;
     result := result this; queries := (queries this ++ [sel])%list |}.

Definition scrapeFromElement (this : t) (element : Element) : Run :=
  match ProviderRegistry.scrapeFromElement (registry this) element with
  | Some (provider, data) =>
      match Metadata.addData (result this) (name provider) (key data) (value data) with
      | inr r => Running (withResult this r)
      | inl err => Thrown err (queries this)
      end
  | None => Running this
  end.

(** [for (const tag of tags) this.scrapeFromElement(tag)] *)
Fixpoint forEach (tags : list Element) (this : t) : Run :=
  match tags with
  | [] => Running this
  | tag :: rest => andThen (scrapeFromElement this tag) (forEach rest)
  end.

Definition scrapeMetaTags (this : t) : Run :=
  let metaTags := querySelectorAll (inputDocument (document this)) SelMeta in
  forEach metaTags (asked this SelMeta).

Definition scrapeTitleTag (this : t) : Run :=
  if hasQuerySelector (document this)
  then
    let titleTag := querySelector (inputDocument (document this)) SelTitle in
    match titleTag with
    | Some titleTag => scrapeFromElement (asked this SelTitle) titleTag
    | None => Running (asked this SelTitle)
    end
  else Thrown (TypeError "this.document.querySelector is not a function") (queries this).

Definition scrapeHeadingTags (this : t) : Run :=
  if hasQuerySelector (document this)
  then
    let h1Tag := querySelector (inputDocument (document this)) SelH1 in
    match h1Tag with
    | Some h1Tag => scrapeFromElement (asked this SelH1) h1Tag
    | None => Running (asked this SelH1)
    end
  else Thrown (TypeError "this.document.querySelector is not a function") (queries this).

Definition scrapeLinkTags (this : t) : Run :=
  let linkTags := querySelectorAll (inputDocument (document this)) SelLinkRel in
  forEach linkTags (asked this SelLinkRel).

(** One turn of the loop of [scrapeFeedLinks]. *)
Definition scrapeFeedLink (this : t) (tag : Element) : t :=
  let title := Js.or (getAttribute tag "title") None in
  let type := Js.or_lit (getAttribute tag "type") "" in
  let href := getAttribute tag "href" in
  match href with
  | Some (String c s) =>
      withResult this
        (Metadata.pushFeed (result this)
           {| feed_title := title; feed_type := type; feed_href := String c s |})
  | _ => this
  end.

Definition scrapeFeedLinks (this : t) : Run :=
  let feedLinkTags := querySelectorAll (inputDocument (document this)) SelLinkAlternate in
  Running (foldl scrapeFeedLink (asked this SelLinkAlternate) feedLinkTags).

Definition getResult (this : t) : Metadata.t := result this.

(** The five phases, from the state [scrape] has set up. *)
Definition run (this : t) : Run :=
  andThen
    (andThen
       (andThen (andThen (scrapeMetaTags this) scrapeTitleTag) scrapeHeadingTags)
       scrapeLinkTags)
    scrapeFeedLinks.

(** [scrape]: what it returns or throws, and the selectors it handed to
    the document.  (The method is [async]: what it throws rejects the
    promise it returns.) *)
Definition scrape (registry : ProviderRegistry.t) (input : JsInput)
  : Exc Metadata.t * list Selector :=
  if negb (inputTruthy input) || negb (hasQuerySelectorAll input)
  then (throw (TypeError "DOM Document expected."), [])
  else
    match Metadata.new (Some registry) with
    | inl err => (throw err, [])
    | inr fresh =>
        let this :=
          {| registry := registry; document := input;
             result := fresh; queries := [] |} in
        match run this with
        | Running this => (ret (getResult this), queries this)
        | Thrown err asked => (throw err, asked)
        end
    end.

End Scraper.

(** ** provider-loader.ts

    The loader reads a directory and imports modules; what is embedded is
    its choice of files and the list [loadDefaults] builds when the four
    modules import. *)

Module ProviderLoader.

(** [s.endsWith(suffix)]: the code units of [s] from [length s - length
    suffix] on are those of [suffix]. *)
Definition endsWith (s suffix : string) : bool :=
  if (String.length suffix <=? String.length s)%nat
  then String.eqb (Js.slice (String.length s - String.length suffix) s) suffix
  else false.

(** [file => file.endsWith('.js') && !file.endsWith('.d.ts')] *)
Definition isProviderFile (file : string) : bool :=
  endsWith file ".js" && negb (endsWith file ".d.ts").

Definition providerFiles (files : list string) : list string :=
  List.filter isProviderFile files.

Definition loadDefaults : list MetadataProvider :=
  [OpenGraphProvider.new; TwitterProvider.new;
   StandardMetaProvider.new; OtherElementsProvider.new].

End ProviderLoader.

(** * Properties *)

(** ** Vocabulary of the statements *)

(** Ascending by priority: every provider is at most every later one. *)
Definition ascending (ps : list MetadataProvider) : Prop :=
  StronglySorted (fun a b => (priority a <= priority b)%Q) ps.

(** The providers of priority [q], in the order of the list. *)
Definition withPriority (q : Q) (ps : list MetadataProvider) : list MetadataProvider :=
  List.filter (fun p => Qeq_bool (priority p) q) ps.

(** What a provider answers for a field in the loop of [resolveValue]:
    nothing when the data object has no property of its name, the result of
    its [getValue] when the property is a Map; and the loop is thrown out of
    when the read throws, or finds an inherited member, which is no Map. *)
Definition answer (key : string) (providerData : ProviderData) (p : MetadataProvider)
  : Exc (option string) :=
  match JsObject.get providerData (name p) with
  | inl err => throw err
  | inr (JsObject.IsMap data) => ret (getValue p key data)
  | inr JsObject.NotMap => throw (TypeError "data.get is not a function")
  | inr JsObject.Missing => ret None
  end.

(** A provider is silent on a field: it answers, without a throw, nothing
    or the empty string. *)
Definition silent (key : string) (providerData : ProviderData) (p : MetadataProvider)
  : Prop :=
  exists o, answer key providerData p = ret o /\ Js.truthy o = false.

(** A name under which [addData] can write: it reads as a Map, or as
    nothing.  The other names read as an inherited member, or throw. *)
Definition usable (providerData : ProviderData) (n : string) : bool :=
  match JsObject.get providerData n with
  | inr (JsObject.IsMap _) | inr JsObject.Missing => true
  | _ => false
  end.

(** The logic of [getValue] that the providers of the sources share. *)
Definition firstValue (p : MetadataProvider) : Prop :=
  forall key data, getValue p key data = Js.firstOf (data !! key).

(** The accumulator after a run of [addData] calls, each a provider name,
    a key and a value; a call that throws leaves it as it was. *)
Definition accumulate (m : Metadata.t) (calls : list (string * string * string))
  : Metadata.t :=
  foldl (fun m call =>
           match Metadata.addData m call.1.1 call.1.2 call.2 with
           | inr m' => m'
           | inl _ => m
           end) m calls.

(** Every provider of the registry has, as the constructor leaves it, a
    Map of its own under its name. *)
Definition seeded (registry : ProviderRegistry.t) (m : Metadata.t) : Prop :=
  Forall (fun p => is_Some (Metadata.providerData m !! name p))
         (ProviderRegistry.getProviders registry).

(** A field nobody wrote is in nobody's map. *)
Definition lacks (k : string) (m : Metadata.t) : Prop :=
  forall n d, Metadata.providerData m !! n = Some d -> d !! k = None.

(** The feed records one element contributes: one for a link whose [rel]
    is [alternate] and whose [href] is a non-empty string, none otherwise.
    The title is kept when it is a non-empty string. *)
Definition feedRecords (element : Element) : list Feed :=
  if matches SelLinkAlternate element
  then
    match getAttribute element "href" with
    | Some href =>
        if String.eqb href "" then []
        else [ {| feed_title :=
                    match getAttribute element "title" with
                    | Some "" => None
                    | t => t
                    end;
                  feed_type := default "" (getAttribute element "type");
                  feed_href := href |} ]
    | None => []
    end
  else [].

(** A string of white space only (the empty string included). *)
Fixpoint isBlank (s : string) : bool :=
  match s with
  | EmptyString => true
  | String c s' => Js.isWhiteSpace c && isBlank s'
  end.

(** The values a run of [addData] calls writes for one provider and one
    key, in the order of the calls. *)
Definition written (n k : string) (calls : list (string * string * string))
  : list string :=
  omap (fun call =>
          if String.eqb call.1.1 n && String.eqb call.1.2 k
          then Some call.2 else None) calls.

(** The nodes the four dispatching phases visit, in the order of the
    visits. *)
Definition phaseNodes (document : Document) : list Element :=
  (querySelectorAll document SelMeta
   ++ option_list (querySelector document SelTitle)
   ++ option_list (querySelector document SelH1)
   ++ querySelectorAll document SelLinkRel)%list.

(** The [addData] call a dispatched node gives rise to, if any. *)
Definition dispatchCall (registry : ProviderRegistry.t) (element : Element)
  : option (string * string * string) :=
  match ProviderRegistry.scrapeFromElement registry element with
  | Some (provider, data) => Some (name provider, key data, value data)
  | None => None
  end.

(** No two providers of the list have the same priority. *)
Fixpoint distinctPriorities (ps : list MetadataProvider) : bool :=
  match ps with
  | [] => true
  | p :: rest =>
      forallb (fun q => negb (Qeq_bool (priority p) (priority q))) rest
      && distinctPriorities rest
  end.

(** The string does not begin, and does not end, with white space. *)
Definition startsBlank (s : string) : bool :=
  match s with
  | String c _ => Js.isWhiteSpace c
  | EmptyString => false
  end.

Fixpoint endsBlank (s : string) : bool :=
  match s with
  | EmptyString => false
  | String c EmptyString => Js.isWhiteSpace c
  | String _ s' => endsBlank s'
  end.

(** The first truthy value of a list of answers, none when there is none. *)
Fixpoint firstTruthy (answers : list (option string)) : option string :=
  match answers with
  | [] => None
  | o :: rest => if Js.truthy o then o else firstTruthy rest
  end.

(** The [url] member of a value read as [image]: a member of an object,
    [undefined] on a string, a number, a boolean or an array. *)
Definition urlOf (image : JsValue) : JsValue :=
  match image with
  | Parsed (JObject members) => JsonLdProvider.lookupMember members "url"
  | _ => Undefined
  end.

(** A provider misses a node: it does not recognise it or extracts nothing. *)
Definition misses (element : Element) (p : MetadataProvider) : Prop :=
  canHandle p element = false \/ scrape p element = None.

(** ** The stable sort *)

Section SortByKey.

Context {A : Type}.
Variable sortKey : A -> Q.

Let compareFn (a b : A) : Q := (sortKey a - sortKey b)%Q.
Let le (a b : A) : Prop := (sortKey a <= sortKey b)%Q.
Let keyed (q : Q) (l : list A) : list A :=
  List.filter (fun a => Qeq_bool (sortKey a) q) l.

Lemma after_true (a b : A) :
  JsArray.after compareFn a b = true <-> (sortKey b < sortKey a)%Q.
Proof.
  unfold JsArray.after, compareFn. rewrite negb_true_iff.
  split.
  - intros H. destruct (Qlt_le_dec (sortKey b) (sortKey a)) as [Hlt|Hle]; [exact Hlt|].
    assert (Hb : Qle_bool (sortKey a - sortKey b) 0 = true)
      by (apply Qle_bool_iff; lra).
    congruence.
  - intros Hlt. destruct (Qle_bool (sortKey a - sortKey b) 0) eqn:E; [|reflexivity].
    apply Qle_bool_iff in E. lra.
Qed.

Lemma after_false (a b : A) :
  JsArray.after compareFn a b = false <-> (sortKey a <= sortKey b)%Q.
Proof.
  split.
  - intros H. destruct (Qlt_le_dec (sortKey b) (sortKey a)) as [Hlt|Hle]; [|exact Hle].
    apply after_true in Hlt. congruence.
  - intros Hle. destruct (JsArray.after compareFn a b) eqn:E; [|reflexivity].
    apply after_true in E. lra.
Qed.

Lemma insertSorted_elem (x y : A) (l : list A) :
  y ∈ JsArray.insertSorted compareFn x l -> y = x \/ y ∈ l.
Proof.
  induction l as [|z l IH]; simpl.
  - intros H. apply list_elem_of_singleton in H. by left.
  - destruct (JsArray.after compareFn z x).
    + intros H. apply elem_of_cons in H as [->|H]; [by left | by right].
    + intros H. apply elem_of_cons in H as [->|H].
      * right. apply elem_of_cons. by left.
      * destruct (IH H) as [->|Hin]; [by left|]. right. apply elem_of_cons. by right.
Qed.

Lemma insertSorted_sorted (x : A) (l : list A) :
  StronglySorted le l -> StronglySorted le (JsArray.insertSorted compareFn x l).
Proof.
  induction l as [|z l IH]; simpl; intros Hs.
  - repeat constructor.
  - apply StronglySorted_inv in Hs as [Hl Hz].
    destruct (JsArray.after compareFn z x) eqn:E.
    + apply after_true in E.
      constructor; [by constructor|].
      constructor; [unfold le; lra|].
      eapply Forall_impl; [exact Hz|]. intros w Hw. unfold le in *. lra.
    + apply after_false in E.
      constructor; [by apply IH|].
      apply Forall_forall. intros w Hw.
      apply insertSorted_elem in Hw as [->|Hw]; [exact E|].
      rewrite Forall_forall in Hz. by apply Hz.
Qed.

Lemma keyed_above (q : Q) (l : list A) :
  Forall (fun a => (q < sortKey a)%Q) l -> keyed q l = [].
Proof.
  induction 1 as [|a l Ha _ IH]; [reflexivity|].
  unfold keyed in *. simpl.
  destruct (Qeq_bool (sortKey a) q) eqn:E; [|exact IH].
  apply Qeq_bool_iff in E. lra.
Qed.

Lemma keyed_app (q : Q) (l1 l2 : list A) :
  keyed q (l1 ++ l2) = (keyed q l1 ++ keyed q l2)%list.
Proof. unfold keyed. apply List.filter_app. Qed.

Lemma keyed_cons (q : Q) (a : A) (l : list A) :
  keyed q (a :: l) = if Qeq_bool (sortKey a) q then a :: keyed q l else keyed q l.
Proof. reflexivity. Qed.

(** Inserting the newest element keeps, for every key, the order of
    arrival. *)
Lemma insertSorted_keyed (q : Q) (x : A) (l : list A) :
  StronglySorted le l ->
  keyed q (JsArray.insertSorted compareFn x l) = keyed q (l ++ [x]).
Proof.
  induction l as [|z l IH]; cbn [JsArray.insertSorted]; intros Hs; [reflexivity|].
  apply StronglySorted_inv in Hs as [Hl Hz].
  destruct (JsArray.after compareFn z x) eqn:E.
  - apply after_true in E.
    rewrite keyed_app, (keyed_cons q x (z :: l)), (keyed_cons q x []).
    destruct (Qeq_bool (sortKey x) q) eqn:Ex.
    + apply Qeq_bool_iff in Ex.
      rewrite (keyed_above q (z :: l)); [reflexivity|].
      constructor; [lra|].
      eapply Forall_impl; [exact Hz|]. intros w Hw. unfold le in Hw. simpl in Hw. lra.
    + change (keyed q []) with (@nil A). by rewrite app_nil_r.
  - change ((z :: l) ++ [x])%list with (z :: (l ++ [x]))%list.
    rewrite !keyed_cons.
    destruct (Qeq_bool (sortKey z) q); [f_equal|]; by apply IH.
Qed.

Lemma insertSorted_perm (x : A) (l : list A) :
  JsArray.insertSorted compareFn x l ≡ₚ x :: l.
Proof.
  induction l as [|z l IH]; simpl; [reflexivity|].
  destruct (JsArray.after compareFn z x); [reflexivity|].
  rewrite IH. apply Permutation_swap.
Qed.

Lemma sort_from (acc l : list A) :
  StronglySorted le acc ->
  let r := foldl (fun acc x => JsArray.insertSorted compareFn x acc) acc l in
  StronglySorted le r
  /\ (forall q, keyed q r = keyed q (acc ++ l))
  /\ r ≡ₚ acc ++ l.
Proof.
  revert acc. induction l as [|x l IH]; simpl; intros acc Hacc.
  - rewrite app_nil_r. by repeat split.
  - destruct (IH _ (insertSorted_sorted x acc Hacc)) as (Hs & Hk & Hp).
    split; [exact Hs|]. split.
    + intros q. rewrite Hk, !keyed_app. rewrite insertSorted_keyed by exact Hacc.
      rewrite keyed_app. rewrite <- app_assoc.
      change (x :: l) with ([x] ++ l)%list. by rewrite keyed_app.
    + rewrite Hp, insertSorted_perm. simpl. apply Permutation_middle.
Qed.

Lemma keyed_elem (q : Q) (x : A) (l : list A) : x ∈ keyed q l -> x ∈ l.
Proof.
  intros H. apply list_elem_of_In. apply list_elem_of_In in H.
  by apply List.filter_In in H as [H _].
Qed.

Lemma keyed_own (a : A) (l : list A) :
  keyed (sortKey a) (a :: l) = a :: keyed (sortKey a) l.
Proof. by rewrite keyed_cons, Qeq_bool_refl. Qed.

Lemma sorted_head_le (a b : A) (l : list A) :
  StronglySorted le (a :: l) -> b ∈ a :: l -> (sortKey a <= sortKey b)%Q.
Proof.
  intros Hs Hb. apply StronglySorted_inv in Hs as [_ Ha].
  apply elem_of_cons in Hb as [->|Hb]; [apply Qle_refl|].
  rewrite Forall_forall in Ha. by apply Ha.
Qed.

(** An ascending list is determined by the order of arrival within each
    key: there is one stable ascending arrangement. *)
Lemma stable_sorted_unique (r1 r2 : list A) :
  StronglySorted le r1 -> StronglySorted le r2 ->
  (forall q, keyed q r1 = keyed q r2) -> r1 = r2.
Proof.
  revert r2. induction r1 as [|a r1 IH]; intros [|b r2] H1 H2 Hk; [done| | |].
  - specialize (Hk (sortKey b)). rewrite keyed_own in Hk. discriminate.
  - specialize (Hk (sortKey a)). rewrite keyed_own in Hk. discriminate.
  - assert (Hab : (sortKey a <= sortKey b)%Q).
    { apply (sorted_head_le a b r1 H1), (keyed_elem (sortKey b)).
      rewrite Hk, keyed_own. apply elem_of_cons. by left. }
    assert (Hba : (sortKey b <= sortKey a)%Q).
    { apply (sorted_head_le b a r2 H2), (keyed_elem (sortKey a)).
      rewrite <- Hk, keyed_own. apply elem_of_cons. by left. }
    assert (Heq : Qeq_bool (sortKey b) (sortKey a) = true)
      by (apply Qeq_bool_iff; lra).
    pose proof (Hk (sortKey a)) as Ha.
    rewrite keyed_own, keyed_cons, Heq in Ha. injection Ha as <- _.
    f_equal. apply StronglySorted_inv in H1 as [H1 _], H2 as [H2 _].
    apply IH; [done | done |].
    intros q. specialize (Hk q). rewrite !keyed_cons in Hk.
    destruct (Qeq_bool (sortKey a) q); [by injection Hk | done].
Qed.

(** [sort] returns the stable ascending arrangement of its argument. *)
Lemma sort_stable (l : list A) :
  StronglySorted le (JsArray.sort compareFn l)
  /\ (forall q, keyed q (JsArray.sort compareFn l) = keyed q l)
  /\ JsArray.sort compareFn l ≡ₚ l.
Proof. unfold JsArray.sort. apply (sort_from [] l). constructor. Qed.

(** Whatever stable ascending arrangement an engine computes, it is the
    one [sort] returns. *)
Lemma sort_unique (l r : list A) :
  StronglySorted le r -> (forall q, keyed q r = keyed q l) ->
  r = JsArray.sort compareFn l.
Proof.
  intros Hr Hk. destruct (sort_stable l) as (Hs & Hq & _).
  apply stable_sorted_unique; [done | done |].
  intros q. by rewrite Hk, Hq.
Qed.

End SortByKey.

(** ** The registry keeps its providers in stable ascending order *)

Lemma registerProvider_stable (this : ProviderRegistry.t) (p : MetadataProvider) :
  let ps := ProviderRegistry.getProviders (ProviderRegistry.registerProvider this p) in
  ascending ps
  /\ (forall q, withPriority q ps
                = withPriority q (ProviderRegistry.getProviders this ++ [p]))
  /\ ps ≡ₚ ProviderRegistry.getProviders this ++ [p].
Proof. apply (sort_stable priority). Qed.

Lemma withPriority_app (q : Q) (l1 l2 : list MetadataProvider) :
  withPriority q (l1 ++ l2) = (withPriority q l1 ++ withPriority q l2)%list.
Proof. apply List.filter_app. Qed.

Lemma register_all_stable (later : list MetadataProvider) (this : ProviderRegistry.t) :
  ascending (ProviderRegistry.getProviders this) ->
  let ps := ProviderRegistry.getProviders (foldl ProviderRegistry.registerProvider this later) in
  ascending ps
  /\ (forall q, withPriority q ps
                = withPriority q (ProviderRegistry.getProviders this ++ later))
  /\ ps ≡ₚ ProviderRegistry.getProviders this ++ later.
Proof.
  revert this. induction later as [|p later IH]; intros this Hthis; simpl.
  - rewrite app_nil_r. by repeat split.
  - destruct (registerProvider_stable this p) as (Hs & Hk & Hp).
    destruct (IH _ Hs) as (Hs' & Hk' & Hp').
    split; [exact Hs'|]. split.
    + intros q. change (p :: later) with ([p] ++ later)%list.
      rewrite Hk', !withPriority_app, Hk, withPriority_app.
      by rewrite <- app_assoc.
    + rewrite Hp', Hp, <- app_assoc. reflexivity.
Qed.

(** Every registry the class can reach is [new l], for the providers [l]
    handed to the constructor and to [registerProvider] so far. *)
Lemma registry_reachable (initial later : list MetadataProvider) :
  foldl ProviderRegistry.registerProvider (ProviderRegistry.new initial) later
  = ProviderRegistry.new (initial ++ later).
Proof. unfold ProviderRegistry.new. by rewrite foldl_app. Qed.

Lemma new_ascending (initial : list MetadataProvider) :
  ascending (ProviderRegistry.getProviders (ProviderRegistry.new initial)).
Proof.
  unfold ProviderRegistry.new.
  apply (register_all_stable initial {| ProviderRegistry.providers := [] |}).
  constructor.
Qed.

Lemma ascending_split (l1 l2 : list MetadataProvider) (p : MetadataProvider) :
  ascending (l1 ++ p :: l2) ->
  Forall (fun q => (priority q <= priority p)%Q) l1
  /\ Forall (fun q => (priority p <= priority q)%Q) l2.
Proof.
  unfold ascending. induction l1 as [|a l1 IH]; simpl; intros Hs.
  - apply StronglySorted_inv in Hs as [_ Hp]. by split.
  - apply StronglySorted_inv in Hs as [Hl Ha].
    destruct (IH Hl) as [H1 H2]. split; [|exact H2].
    constructor; [|exact H1].
    rewrite Forall_forall in Ha. apply Ha.
    apply elem_of_app. right. apply elem_of_cons. by left.
Qed.

(** C3. Whatever providers are registered, in whatever order, through the
    constructor and through later [registerProvider] calls, [getProviders]
    lists them ascending by priority, and the providers of one priority
    appear in the order of their registration. *)
Theorem getProviders_sorted_stable (initial later : list MetadataProvider) :
  let reg := foldl ProviderRegistry.registerProvider (ProviderRegistry.new initial) later in
  ascending (ProviderRegistry.getProviders reg)
  /\ (forall q, withPriority q (ProviderRegistry.getProviders reg)
                = withPriority q (initial ++ later))
  /\ ProviderRegistry.getProviders reg ≡ₚ initial ++ later.
Proof.
  intros reg. subst reg. rewrite registry_reachable.
  unfold ProviderRegistry.new.
  apply (register_all_stable (initial ++ later) {| ProviderRegistry.providers := [] |}).
  constructor.
Qed.

(** ** Dispatch *)

Lemma scrapeLoop_first (l1 l2 : list MetadataProvider) (p : MetadataProvider)
  (element : Element) (d : KeyValue) :
  Forall (misses element) l1 ->
  canHandle p element = true ->
  scrape p element = Some d ->
  ProviderRegistry.scrapeLoop (l1 ++ p :: l2) element = Some (p, d).
Proof.
  intros Hmiss Hcan Hscrape.
  induction Hmiss as [|a l1 Ha _ IH]; simpl.
  - by rewrite Hcan, Hscrape.
  - destruct Ha as [Ha|Ha]; rewrite Ha; [exact IH|].
    by destruct (canHandle a element).
Qed.

Lemma scrapeLoop_some (ps : list MetadataProvider) (element : Element)
  (p : MetadataProvider) (d : KeyValue) :
  ProviderRegistry.scrapeLoop ps element = Some (p, d) ->
  exists l1 l2, ps = (l1 ++ p :: l2)%list
    /\ Forall (misses element) l1
    /\ canHandle p element = true
    /\ scrape p element = Some d.
Proof.
  induction ps as [|a ps IH]; simpl; [discriminate|].
  destruct (canHandle a element) eqn:Hcan.
  - destruct (scrape a element) as [d'|] eqn:Hscrape.
    + intros [= -> ->]. exists [], ps. by repeat split.
    + intros H. destruct (IH H) as (l1 & l2 & -> & Hm & Hc & Hs).
      exists (a :: l1), l2. repeat split; try done.
      constructor; [by right | done].
  - intros H. destruct (IH H) as (l1 & l2 & -> & Hm & Hc & Hs).
    exists (a :: l1), l2. repeat split; try done.
    constructor; [by left | done].
Qed.

Lemma scrapeLoop_none (ps : list MetadataProvider) (element : Element) :
  ProviderRegistry.scrapeLoop ps element = None <-> Forall (misses element) ps.
Proof.
  induction ps as [|a ps IH]; simpl; [by split; [constructor|]|].
  split.
  - intros H. destruct (canHandle a element) eqn:Hcan.
    + destruct (scrape a element) eqn:Hscrape; [discriminate|].
      constructor; [by right | by apply IH].
    + constructor; [by left | by apply IH].
  - intros H. apply Forall_cons in H as [[Ha|Ha] Hps]; rewrite Ha.
    + by apply IH.
    + destruct (canHandle a element); by apply IH.
Qed.

(** C1. Dispatch returns the result of the first provider, in ascending
    priority order, that recognises the node and extracts from it: the
    providers before it all miss the node and have priorities no greater,
    those after it have priorities no smaller.  The result is none exactly
    when every provider misses.  In particular, when the provider of smaller
    priority number recognises the node but extracts nothing and the other
    recognises it and extracts, the other's result is returned, whichever
    was registered first. *)
Theorem scrapeFromElement_first_success (initial : list MetadataProvider)
  (element : Element) :
  let reg := ProviderRegistry.new initial in
  (forall p d,
      ProviderRegistry.scrapeFromElement reg element = Some (p, d) <->
      exists l1 l2,
        ProviderRegistry.getProviders reg = (l1 ++ p :: l2)%list
        /\ Forall (misses element) l1
        /\ canHandle p element = true
        /\ scrape p element = Some d
        /\ Forall (fun q => (priority q <= priority p)%Q) l1
        /\ Forall (fun q => (priority p <= priority q)%Q) l2)
  /\ (ProviderRegistry.scrapeFromElement reg element = None <->
      Forall (misses element) (ProviderRegistry.getProviders reg))
  /\ (forall a b d,
      (priority a < priority b)%Q ->
      canHandle a element = true -> scrape a element = None ->
      canHandle b element = true -> scrape b element = Some d ->
      ProviderRegistry.scrapeFromElement (ProviderRegistry.new [a; b]) element = Some (b, d)
      /\ ProviderRegistry.scrapeFromElement (ProviderRegistry.new [b; a]) element = Some (b, d)).
Proof.
  intros reg. split; [|split].
  - intros p d. unfold ProviderRegistry.scrapeFromElement. split.
    + intros H. destruct (scrapeLoop_some _ _ _ _ H) as (l1 & l2 & Heq & Hm & Hc & Hs).
      exists l1, l2. repeat split; try done.
      * apply (ascending_split l1 l2 p).
        unfold ProviderRegistry.getProviders in *. rewrite <- Heq. apply new_ascending.
      * apply (ascending_split l1 l2 p).
        unfold ProviderRegistry.getProviders in *. rewrite <- Heq. apply new_ascending.
    + intros (l1 & l2 & Heq & Hm & Hc & Hs & _).
      unfold ProviderRegistry.getProviders in Heq. rewrite Heq.
      by apply scrapeLoop_first.
  - apply scrapeLoop_none.
  - intros a b d Hlt Hca Hsa Hcb Hsb.
    assert (Hab : JsArray.after ProviderRegistry.byPriority a b = false)
      by (apply (after_false priority); lra).
    assert (Hba : JsArray.after ProviderRegistry.byPriority b a = true)
      by (apply (after_true priority); lra).
    unfold ProviderRegistry.scrapeFromElement, ProviderRegistry.new,
      ProviderRegistry.registerProvider, JsArray.sort. simpl.
    rewrite Hab, Hba. simpl.
    rewrite Hca, Hsa, Hcb, Hsb. by split.
Qed.

(** A concrete run of the fall-through: the Open Graph provider recognises
    a title element that carries an [og:] property but extracts nothing
    from it, there being no content attribute, and the title is taken by
    the provider of the structural elements. *)
Lemma scrapeFromElement_first_success_witness :
  let element := mkElement (Some "TITLE") [("property", "og:x")] (Some "T") in
  ProviderRegistry.scrapeFromElement
    (ProviderRegistry.new [OpenGraphProvider.new; OtherElementsProvider.new]) element
  = Some (OtherElementsProvider.new, {| key := "title"; value := "T" |}).
Proof.
  intros element.
  apply (proj2 (proj2 (scrapeFromElement_first_success [] element))
           OpenGraphProvider.new OtherElementsProvider.new);
    reflexivity.
Defined.

(** ** Field resolution *)

Lemma truthy_Some (v : string) : Js.truthy (Some v) = true <-> v <> "".
Proof. destruct v; simpl; split; congruence. Qed.

Lemma resolveLoop_cons (p : MetadataProvider) (rest : list MetadataProvider)
  (key : string) (providerData : ProviderData) :
  ProviderRegistry.resolveLoop (p :: rest) key providerData
  = match answer key providerData p with
    | inl err => throw err
    | inr o =>
        if Js.truthy o then ret o
        else ProviderRegistry.resolveLoop rest key providerData
    end.
Proof.
  unfold answer. cbn [ProviderRegistry.resolveLoop].
  by destruct (JsObject.get providerData (name p)) as [err|[data| |]].
Qed.

Lemma resolveLoop_silent (p : MetadataProvider) (rest : list MetadataProvider)
  (key : string) (providerData : ProviderData) :
  silent key providerData p ->
  ProviderRegistry.resolveLoop (p :: rest) key providerData
  = ProviderRegistry.resolveLoop rest key providerData.
Proof.
  intros (o & Ha & Ho). rewrite resolveLoop_cons, Ha. unfold ret. by rewrite Ho.
Qed.

Lemma resolveLoop_skip (l1 l2 : list MetadataProvider) (p : MetadataProvider)
  (key : string) (providerData : ProviderData) :
  silent key providerData p ->
  ProviderRegistry.resolveLoop (l1 ++ p :: l2) key providerData
  = ProviderRegistry.resolveLoop (l1 ++ l2) key providerData.
Proof.
  intros Hp. induction l1 as [|a l1 IH].
  - by apply resolveLoop_silent.
  - change ((a :: l1) ++ p :: l2)%list with (a :: (l1 ++ p :: l2))%list.
    change ((a :: l1) ++ l2)%list with (a :: (l1 ++ l2))%list.
    by rewrite !resolveLoop_cons, IH.
Qed.

Lemma resolveLoop_past (l1 rest : list MetadataProvider) (key : string)
  (providerData : ProviderData) :
  Forall (silent key providerData) l1 ->
  ProviderRegistry.resolveLoop (l1 ++ rest) key providerData
  = ProviderRegistry.resolveLoop rest key providerData.
Proof.
  induction 1 as [|a l1 Ha _ IH]; [reflexivity|].
  change ((a :: l1) ++ rest)%list with (a :: (l1 ++ rest))%list.
  by rewrite (resolveLoop_silent _ _ _ _ Ha).
Qed.

Lemma resolveLoop_first (l1 l2 : list MetadataProvider) (p : MetadataProvider)
  (key : string) (providerData : ProviderData) (v : string) :
  Forall (silent key providerData) l1 ->
  answer key providerData p = ret (Some v) ->
  v <> "" ->
  ProviderRegistry.resolveLoop (l1 ++ p :: l2) key providerData = ret (Some v).
Proof.
  intros Hsilent Hp Hv. rewrite (resolveLoop_past _ _ _ _ Hsilent).
  rewrite resolveLoop_cons, Hp. unfold ret. by rewrite (proj2 (truthy_Some v) Hv).
Qed.


Lemma resolveLoop_some (ps : list MetadataProvider) (key : string)
  (providerData : ProviderData) (v : string) :
  ProviderRegistry.resolveLoop ps key providerData = ret (Some v) ->
  exists l1 p l2, ps = (l1 ++ p :: l2)%list
    /\ Forall (silent key providerData) l1
    /\ answer key providerData p = ret (Some v)
    /\ v <> "".
Proof.
  induction ps as [|a ps IH]; [discriminate|].
  rewrite resolveLoop_cons.
  destruct (answer key providerData a) as [err|o] eqn:Ha; [discriminate|].
  destruct (Js.truthy o) eqn:Ho.
  - intros [= ->]. exists [], a, ps.
    repeat split; [constructor | done | by apply truthy_Some].
  - intros H. destruct (IH H) as (l1 & p & l2 & -> & Hs & Hp & Hv).
    exists (a :: l1), p, l2. repeat split; try done.
    constructor; [by exists o | done].
Qed.

Lemma resolveLoop_none (ps : list MetadataProvider) (key : string)
  (providerData : ProviderData) :
  ProviderRegistry.resolveLoop ps key providerData = ret None
  <-> Forall (silent key providerData) ps.
Proof.
  induction ps as [|a ps IH]; [by split; [constructor|]|].
  rewrite resolveLoop_cons. split.
  - destruct (answer key providerData a) as [err|o] eqn:Ha; [discriminate|].
    destruct (Js.truthy o) eqn:Ho.
    + intros [= ->]. discriminate.
    + intros Hn. constructor; [by exists o | by apply IH].
  - intros [(o & Ha & Ho) Hps]%Forall_cons. rewrite Ha. unfold ret at 1.
    rewrite Ho. by apply IH.
Qed.


Lemma resolveLoop_not_empty (ps : list MetadataProvider) (key : string)
  (providerData : ProviderData) :
  ProviderRegistry.resolveLoop ps key providerData <> ret (Some "").
Proof.
  intros H. apply resolveLoop_some in H as (_ & _ & _ & _ & _ & _ & Hv). by apply Hv.
Qed.





(** ** The accumulator *)

Lemma get_entry (pd : ProviderData) (n : string) (d : gmap string (list string)) :
  pd !! n = Some d -> JsObject.get pd n = ret (JsObject.IsMap d).
Proof. intros H. unfold JsObject.get. by rewrite H. Qed.

(** Under a usable name [addData] is one update: the list of the provider
    and key, the empty list when there is none yet, gets the value at its
    end. *)
Lemma addData_usable (m : Metadata.t) (n k v : string) :
  usable (Metadata.providerData m) n = true ->
  Metadata.addData m n k v
  = ret {| Metadata.providerData :=
             <[n := <[k := (default [] (Metadata.namespace m n !! k) ++ [v])%list]>
                      (Metadata.namespace m n)]> (Metadata.providerData m);
           Metadata.registry := Metadata.registry m;
           Metadata.feeds := Metadata.feeds m |}.
Proof.
  unfold usable, Metadata.addData, Metadata.namespace, JsObject.get, JsObject.set.
  destruct (Metadata.providerData m !! n) as [d|] eqn:E.
  - intros _. cbv [bind ret]. rewrite E. cbv [bind ret default from_option id].
    destruct (d !! k) as [l|] eqn:Ek; [by rewrite Ek|].
    by rewrite lookup_insert_eq, insert_insert_eq.
  - destruct (JsObject.installed (Metadata.providerData m) && String.eqb n "size");
      [done|].
    destruct (_ || _); [done|]. intros _. cbv [bind ret].
    rewrite lookup_insert_eq.
    cbv [bind ret default from_option id].
    rewrite lookup_empty. by rewrite lookup_insert_eq, !insert_insert_eq.
Qed.

Lemma addData_unusable (m : Metadata.t) (n k v : string) :
  usable (Metadata.providerData m) n = false ->
  exists err, Metadata.addData m n k v = throw err.
Proof.
  unfold usable, Metadata.addData.
  destruct (JsObject.get (Metadata.providerData m) n) as [err|[d| |]] eqn:E;
    try done; intros _.
  - by exists err.
  - cbn [bind ret]. rewrite E. by eexists.
Qed.

Lemma addData_ret (m m' : Metadata.t) (n k v : string) :
  Metadata.addData m n k v = ret m' ->
  usable (Metadata.providerData m) n = true
  /\ m' = {| Metadata.providerData :=
               <[n := <[k := (default [] (Metadata.namespace m n !! k) ++ [v])%list]>
                        (Metadata.namespace m n)]> (Metadata.providerData m);
             Metadata.registry := Metadata.registry m;
             Metadata.feeds := Metadata.feeds m |}.
Proof.
  intros H. destruct (usable (Metadata.providerData m) n) eqn:E.
  - split; [done|]. rewrite (addData_usable _ _ _ _ E) in H. by injection H.
  - destruct (addData_unusable m n k v E) as [err Herr].
    rewrite Herr in H. discriminate H.
Qed.

Lemma usable_installed (pd : ProviderData) :
  usable pd "__proto__" = true -> is_Some (pd !! "__proto__").
Proof.
  unfold usable, JsObject.get. destruct (pd !! "__proto__"); [by eexists|].
  destruct (JsObject.installed pd && _); [done|].
  by rewrite orb_true_r.
Qed.

Lemma insert_installed (pd : ProviderData) (n : string) (d : gmap string (list string)) :
  usable pd n = true ->
  JsObject.installed (<[n := d]> pd) = JsObject.installed pd.
Proof.
  intros Hu. unfold JsObject.installed.
  destruct (decide (n = "__proto__")) as [->|Hne].
  - destruct (usable_installed _ Hu) as [d' Hd']. by rewrite lookup_insert_eq, Hd'.
  - by rewrite lookup_insert_ne.
Qed.

Lemma insert_usable (pd : ProviderData) (n n' : string) (d : gmap string (list string)) :
  usable pd n = true ->
  usable (<[n := d]> pd) n' = usable pd n'.
Proof.
  intros Hu. destruct (decide (n = n')) as [<-|Hne].
  - rewrite Hu. unfold usable, JsObject.get. by rewrite lookup_insert_eq.
  - unfold usable, JsObject.get.
    by rewrite lookup_insert_ne, (insert_installed _ _ _ Hu).
Qed.

Lemma accumulate_cons (m : Metadata.t) (n k v : string)
  (calls : list (string * string * string)) :
  accumulate m ((n, k, v) :: calls)
  = accumulate (match Metadata.addData m n k v with
                | inr m' => m'
                | inl _ => m
                end) calls.
Proof. reflexivity. Qed.

(** What a run of calls keeps: the registry, the feeds, the names that are
    usable, and the properties there are. *)
Lemma accumulate_keeps (calls : list (string * string * string)) (m : Metadata.t) :
  Metadata.registry (accumulate m calls) = Metadata.registry m
  /\ Metadata.feeds (accumulate m calls) = Metadata.feeds m
  /\ (forall n, usable (Metadata.providerData (accumulate m calls)) n
                = usable (Metadata.providerData m) n)
  /\ (forall n, is_Some (Metadata.providerData m !! n) ->
                is_Some (Metadata.providerData (accumulate m calls) !! n)).
Proof.
  revert m. induction calls as [|[[n k] v] calls IH]; intros m; [done|].
  rewrite accumulate_cons.
  destruct (Metadata.addData m n k v) as [err|m'] eqn:E; [apply IH|].
  apply addData_ret in E as [Hu ->].
  destruct (IH {| Metadata.providerData :=
                    <[n := <[k := (default [] (Metadata.namespace m n !! k) ++ [v])%list]>
                             (Metadata.namespace m n)]> (Metadata.providerData m);
                  Metadata.registry := Metadata.registry m;
                  Metadata.feeds := Metadata.feeds m |}) as (Hr & Hf & Hus & He).
  cbn [Metadata.registry Metadata.feeds Metadata.providerData] in *.
  repeat split; try done.
  - intros n'. by rewrite Hus, (insert_usable _ _ _ _ Hu).
  - intros n' Hn'. apply He.
    destruct (decide (n = n')) as [<-|Hne];
      [by rewrite lookup_insert_eq | by rewrite lookup_insert_ne].
Qed.

Lemma accumulate_registry (calls : list (string * string * string)) (m : Metadata.t) :
  Metadata.registry (accumulate m calls) = Metadata.registry m.
Proof. apply accumulate_keeps. Qed.

(** The constructor. *)
Lemma seed_lookup (ps : list MetadataProvider) (pd pd' : ProviderData) (n : string) :
  Metadata.seed ps pd = ret pd' ->
  pd' !! n = if bool_decide (n ∈ map name ps) then Some ∅ else pd !! n.
Proof.
  revert pd. induction ps as [|p ps IH]; intros pd; cbn [Metadata.seed].
  - by intros [= ->].
  - destruct (JsObject.set pd (name p) ∅) as [err|pd1] eqn:E; [done|].
    intros H. rewrite (IH _ H).
    assert (Hpd1 : pd1 = <[name p := ∅]> pd).
    { unfold JsObject.set in E. destruct (pd !! name p); [by injection E|].
      destruct (JsObject.installed pd && _); [done | by injection E]. }
    subst pd1. cbn [map].
    destruct (decide (n ∈ map name ps)) as [Hin|Hnin].
    + rewrite !bool_decide_eq_true_2; [done | | done].
      apply elem_of_cons. by right.
    + rewrite (bool_decide_eq_false_2 _ Hnin).
      destruct (decide (name p = n)) as [<-|Hne].
      * rewrite lookup_insert_eq, bool_decide_eq_true_2; [done|].
        apply elem_of_cons. by left.
      * rewrite lookup_insert_ne by done. rewrite bool_decide_eq_false_2; [done|].
        intros [->|H']%elem_of_cons; done.
Qed.

Lemma new_ret (registry : option ProviderRegistry.t) (m : Metadata.t) :
  Metadata.new registry = ret m ->
  Metadata.seed
    (ProviderRegistry.getProviders (default (ProviderRegistry.new []) registry)) ∅
  = ret (Metadata.providerData m)
  /\ Metadata.registry m = default (ProviderRegistry.new []) registry
  /\ Metadata.feeds m = [].
Proof.
  unfold Metadata.new.
  destruct (Metadata.seed _ ∅) as [err|pd]; [done|].
  cbn [bind ret]. by intros [= <-].
Qed.

Lemma new_seeded (reg : ProviderRegistry.t) (m : Metadata.t) :
  Metadata.new (Some reg) = ret m ->
  Forall (fun p => is_Some (Metadata.providerData m !! name p))
         (ProviderRegistry.getProviders reg).
Proof.
  intros (Hseed & _ & _)%new_ret. cbn [default] in Hseed.
  apply Forall_forall. intros p Hp.
  rewrite (seed_lookup _ _ _ (name p) Hseed), bool_decide_eq_true_2; [by eexists|].
  apply list_elem_of_fmap. by exists p.
Qed.

Lemma new_lacks (k : string) (registry : option ProviderRegistry.t) (m : Metadata.t) :
  Metadata.new registry = ret m -> lacks k m.
Proof.
  intros (Hseed & _ & _)%new_ret n d.
  rewrite (seed_lookup _ _ _ n Hseed), lookup_empty.
  case_bool_decide; [intros [= <-]; apply lookup_empty | done].
Qed.

Lemma accumulate_lacks (k : string) (calls : list (string * string * string))
  (m : Metadata.t) :
  Forall (fun call => call.1.2 <> k) calls -> lacks k m -> lacks k (accumulate m calls).
Proof.
  intros Hcalls. revert m.
  induction Hcalls as [|[[n key] v] calls Hc _ IH]; intros m Hm; [exact Hm|].
  rewrite accumulate_cons. apply IH.
  destruct (Metadata.addData m n key v) as [err|m'] eqn:E; [exact Hm|].
  apply addData_ret in E as [_ ->]. intros n' d'. cbn [Metadata.providerData].
  assert (Hns : Metadata.namespace m n !! k = None).
  { unfold Metadata.namespace.
    destruct (Metadata.providerData m !! n) as [d|] eqn:En; simpl;
      [by eapply Hm | apply lookup_empty]. }
  rewrite lookup_insert. case_decide; [|by apply Hm].
  intros [= <-]. cbn [fst snd] in Hc. by rewrite lookup_insert_ne.
Qed.

Lemma seeded_silent (k : string) (m : Metadata.t) (ps : list MetadataProvider) :
  lacks k m -> Forall firstValue ps ->
  Forall (fun p => is_Some (Metadata.providerData m !! name p)) ps ->
  Forall (silent k (Metadata.providerData m)) ps.
Proof.
  intros Hm Hps Hseeded. apply Forall_forall. intros p Hp.
  rewrite Forall_forall in Hps, Hseeded.
  destruct (Hseeded p Hp) as [d Hd]. exists None. split; [|reflexivity].
  unfold answer. rewrite (get_entry _ _ _ Hd). unfold ret.
  by rewrite (Hps p Hp), (Hm _ _ Hd).
Qed.

Lemma orElse_resolved (ps : list MetadataProvider) (key : string)
  (providerData : ProviderData) (next : Exc (option string)) :
  Metadata.orElse (ProviderRegistry.resolveLoop ps key providerData) next
  = match ProviderRegistry.resolveLoop ps key providerData with
    | inl err => throw err
    | inr (Some v) => ret (Some v)
    | inr None => next
    end.
Proof.
  pose proof (resolveLoop_not_empty ps key providerData) as Hne.
  unfold Metadata.orElse.
  destruct (ProviderRegistry.resolveLoop ps key providerData) as [err|[[|c s]|]];
    try done.
Qed.

Lemma favicon_chain (m : Metadata.t) :
  Metadata.favicon m
  = match Metadata.resolveValue m "icon" with
    | inl err => throw err
    | inr (Some v) => ret v
    | inr None =>
        match Metadata.resolveValue m "shortcut icon" with
        | inl err => throw err
        | inr (Some v) => ret v
        | inr None => ret "/favicon.ico"
        end
    end.
Proof.
  unfold Metadata.favicon, Metadata.resolveValue, ProviderRegistry.resolveValue.
  rewrite orElse_resolved.
  pose proof (resolveLoop_not_empty
                (ProviderRegistry.providers (Metadata.registry m)) "icon"
                (Metadata.providerData m)) as Hi.
  pose proof (resolveLoop_not_empty
                (ProviderRegistry.providers (Metadata.registry m)) "shortcut icon"
                (Metadata.providerData m)) as Hs.
  destruct (ProviderRegistry.resolveLoop _ "icon" _) as [err|[[|c s]|]]; try done.
  destruct (ProviderRegistry.resolveLoop _ "shortcut icon" _) as [err|[[|c s]|]];
    try done.
Qed.

(** C8. The favicon is the value resolved for [icon] when there is one, else
    the value resolved for [shortcut icon] when there is one, else the
    literal [/favicon.ico] (a resolution that throws making the getter
    throw); and it is that literal after any run of [addData] calls, on a
    fresh accumulator, that never names either field, the providers
    answering with the first value of a field's list. *)
Theorem favicon_fallback_chain :
  (forall m : Metadata.t,
      Metadata.favicon m
      = match Metadata.resolveValue m "icon" with
        | inl err => throw err
        | inr (Some v) => ret v
        | inr None =>
            match Metadata.resolveValue m "shortcut icon" with
            | inl err => throw err
            | inr (Some v) => ret v
            | inr None => ret "/favicon.ico"
            end
        end)
  /\ (forall (reg : ProviderRegistry.t) (fresh : Metadata.t)
             (calls : list (string * string * string)),
      Metadata.new (Some reg) = ret fresh ->
      Forall firstValue (ProviderRegistry.getProviders reg) ->
      Forall (fun call => call.1.2 <> "icon") calls ->
      Forall (fun call => call.1.2 <> "shortcut icon") calls ->
      Metadata.favicon (accumulate fresh calls) = ret "/favicon.ico").
Proof.
  split; [exact favicon_chain|].
  intros reg fresh calls Hnew Hreg Hicon Hshortcut.
  set (m := accumulate fresh calls).
  destruct (accumulate_keeps calls fresh) as (Hr & _ & _ & He). fold m in Hr, He.
  destruct (new_ret _ _ Hnew) as (_ & Hfr & _). cbn [default] in Hfr.
  assert (Hseeded : Forall (fun p => is_Some (Metadata.providerData m !! name p))
                           (ProviderRegistry.getProviders reg)).
  { eapply Forall_impl; [exact (new_seeded _ _ Hnew)|]. intros p. apply He. }
  rewrite favicon_chain.
  unfold Metadata.resolveValue, ProviderRegistry.resolveValue. rewrite Hr, Hfr.
  rewrite (proj2 (resolveLoop_none _ "icon" _)).
  - rewrite (proj2 (resolveLoop_none _ "shortcut icon" _)); [reflexivity|].
    apply seeded_silent; [|exact Hreg|exact Hseeded].
    apply accumulate_lacks; [exact Hshortcut | by eapply new_lacks].
  - apply seeded_silent; [|exact Hreg|exact Hseeded].
    apply accumulate_lacks; [exact Hicon | by eapply new_lacks].
Qed.

(** The four providers of the sources, one value written for a title and
    none for an icon. *)
Lemma favicon_fallback_chain_witness :
  match
    Metadata.new
      (Some (ProviderRegistry.new
               [OpenGraphProvider.new; TwitterProvider.new;
                StandardMetaProvider.new; OtherElementsProvider.new]))
  with
  | inr fresh =>
      Metadata.favicon (accumulate fresh [("openGraph", "title", "Hello")])
      = ret "/favicon.ico"
  | inl _ => False
  end.
Proof.
  destruct (Metadata.new _) as [err|fresh] eqn:E; [discriminate E|].
  apply (proj2 favicon_fallback_chain _ fresh _ E).
  - repeat constructor.
  - constructor; [discriminate | constructor].
  - constructor; [discriminate | constructor].
Defined.

(** C9. The empty string is invisible to the resolution.  A provider whose
    list for the field begins with the empty string is passed over, the
    result being what the registry without it would give, and the
    resolution goes on: it returns the non-empty answer of the next
    provider that has one.  [resolveValue] never returns the empty string.
    The favicon is [/favicon.ico] when the first provider accumulated an
    empty [icon] and no other value for [icon] or [shortcut icon] was
    supplied, and the icon of the provider behind it when that one has an
    icon. *)
Theorem empty_string_invisible :
  (forall (reg : ProviderRegistry.t) l1 p l2 key (providerData : ProviderData) data more,
      ProviderRegistry.getProviders reg = (l1 ++ p :: l2)%list ->
      firstValue p ->
      providerData !! name p = Some data ->
      data !! key = Some ("" :: more) ->
      ProviderRegistry.resolveValue reg key providerData
      = ProviderRegistry.resolveValue {| ProviderRegistry.providers := l1 ++ l2 |}
          key providerData)
  /\ (forall (reg : ProviderRegistry.t) l1 p l2 q l3 key (providerData : ProviderData)
             data more v,
      ProviderRegistry.getProviders reg = (l1 ++ p :: l2 ++ q :: l3)%list ->
      Forall (silent key providerData) l1 ->
      firstValue p ->
      providerData !! name p = Some data ->
      data !! key = Some ("" :: more) ->
      Forall (silent key providerData) l2 ->
      answer key providerData q = ret (Some v) -> v <> "" ->
      ProviderRegistry.resolveValue reg key providerData = ret (Some v))
  /\ (forall (reg : ProviderRegistry.t) key (providerData : ProviderData),
      ProviderRegistry.resolveValue reg key providerData <> ret (Some ""))
  /\ (forall (m : Metadata.t) p rest data more,
      ProviderRegistry.getProviders (Metadata.registry m) = p :: rest ->
      firstValue p ->
      Metadata.providerData m !! name p = Some data ->
      data !! "icon" = Some ("" :: more) ->
      (Forall (silent "icon" (Metadata.providerData m)) rest ->
       Forall (silent "shortcut icon" (Metadata.providerData m)) (p :: rest) ->
       Metadata.favicon m = ret "/favicon.ico")
      /\ (forall q rest' v,
          rest = q :: rest' ->
          answer "icon" (Metadata.providerData m) q = ret (Some v) -> v <> "" ->
          Metadata.favicon m = ret v)).
Proof.
  assert (Hsilent : forall p key (providerData : ProviderData) data more,
             firstValue p -> providerData !! name p = Some data ->
             data !! key = Some ("" :: more) -> silent key providerData p).
  { intros p key providerData data more Hp Hdata Hkey.
    exists (Some ""). split; [|reflexivity].
    unfold answer. rewrite (get_entry _ _ _ Hdata). unfold ret.
    by rewrite Hp, Hkey. }
  split; [|split; [|split]].
  - intros reg l1 p l2 key providerData data more Hreg Hp Hdata Hkey.
    unfold ProviderRegistry.resolveValue, ProviderRegistry.getProviders in *.
    rewrite Hreg. simpl. apply resolveLoop_skip. by eapply Hsilent.
  - intros reg l1 p l2 q l3 key providerData data more v
           Hreg Hl1 Hp Hdata Hkey Hl2 Hq Hv.
    unfold ProviderRegistry.resolveValue, ProviderRegistry.getProviders in *.
    rewrite Hreg.
    change (l1 ++ p :: l2 ++ q :: l3)%list with (l1 ++ ([p] ++ l2) ++ q :: l3)%list.
    rewrite app_assoc. apply resolveLoop_first; [|done|done].
    apply Forall_app. split; [done|]. constructor; [by eapply Hsilent | done].
  - intros reg key providerData. apply resolveLoop_not_empty.
  - intros m p rest data more Hreg Hp Hdata Hkey.
    pose proof (Hsilent _ _ _ _ _ Hp Hdata Hkey) as Hps.
    split.
    + intros Hicon Hshortcut. rewrite favicon_chain.
      unfold Metadata.resolveValue, ProviderRegistry.resolveValue,
        ProviderRegistry.getProviders in *.
      rewrite Hreg.
      rewrite (proj2 (resolveLoop_none (p :: rest) "icon" _)).
      * by rewrite (proj2 (resolveLoop_none (p :: rest) "shortcut icon" _)).
      * by constructor.
    + intros q rest' v -> Hq Hv. rewrite favicon_chain.
      unfold Metadata.resolveValue, ProviderRegistry.resolveValue,
        ProviderRegistry.getProviders in *.
      rewrite Hreg. change (p :: q :: rest') with ([p] ++ q :: rest')%list.
      by rewrite (resolveLoop_first [p] rest' q "icon" _ v
                    ltac:(by constructor) Hq Hv).
Qed.

(** An empty title held by the provider of the structural elements, and
    the title [T] held by the one behind it: [T] is resolved. *)
Lemma empty_string_invisible_witness :
  let other := OtherElementsProvider.new in
  let custom :=
    mkProvider "custom" 5 (fun _ => false) (fun _ => None)
               (fun key data => Js.firstOf (data !! key)) in
  let providerData : ProviderData :=
    {[ "other" := {[ "title" := [""] ]}; "custom" := {[ "title" := ["T"] ]} ]} in
  ProviderRegistry.resolveValue (ProviderRegistry.new [custom; other])
    "title" providerData
  = ret (Some "T").
Proof.
  intros other custom providerData.
  apply (proj1 (proj2 empty_string_invisible) _ [] other [] custom []
           "title" providerData {[ "title" := [""] ]} [] "T").
  - reflexivity.
  - constructor.
  - intros key data. reflexivity.
  - reflexivity.
  - reflexivity.
  - constructor.
  - reflexivity.
  - discriminate.
Defined.

(** ** The traversal *)

(** The constructor returns when no provider is named [__proto__]: every
    assignment of its loop then creates or overwrites a property. *)
Lemma seed_plain (ps : list MetadataProvider) (pd : ProviderData) :
  "__proto__" ∉ map name ps -> JsObject.installed pd = false ->
  exists pd', Metadata.seed ps pd = ret pd'.
Proof.
  revert pd. induction ps as [|p ps IH]; intros pd Hn Hi; cbn [Metadata.seed].
  - by eexists.
  - cbn [map] in Hn. apply not_elem_of_cons in Hn as [Hp Hps].
    assert (Hset : JsObject.set pd (name p) ∅ = ret (<[name p := ∅]> pd)).
    { unfold JsObject.set. rewrite Hi. by destruct (pd !! name p). }
    rewrite Hset. apply IH; [exact Hps|].
    unfold JsObject.installed in *. by rewrite lookup_insert_ne.
Qed.

Lemma new_plain (reg : ProviderRegistry.t) :
  "__proto__" ∉ map name (ProviderRegistry.getProviders reg) ->
  exists m, Metadata.new (Some reg) = ret m.
Proof.
  intros Hn. unfold Metadata.new.
  change (default (ProviderRegistry.new []) (Some reg)) with reg.
  assert (Hi : JsObject.installed (∅ : ProviderData) = false)
    by (unfold JsObject.installed; by rewrite lookup_empty).
  destruct (seed_plain _ ∅ Hn Hi) as [pd ->]. by eexists.
Qed.

Lemma accumulate_app (m : Metadata.t) (l1 l2 : list (string * string * string)) :
  accumulate m (l1 ++ l2) = accumulate (accumulate m l1) l2.
Proof. unfold accumulate. apply foldl_app. Qed.

Lemma accumulate_seeded (reg : ProviderRegistry.t)
  (calls : list (string * string * string)) (m : Metadata.t) :
  seeded reg m -> seeded reg (accumulate m calls).
Proof.
  unfold seeded. intros H. eapply Forall_impl; [exact H|].
  intros p. apply accumulate_keeps.
Qed.

Lemma entry_usable (pd : ProviderData) (n : string) :
  is_Some (pd !! n) -> usable pd n = true.
Proof. intros [d Hd]. unfold usable. by rewrite (get_entry _ _ _ Hd). Qed.

(** A dispatched node's value is written under the name of a provider of
    the registry, so into the Map the constructor made: the call of
    [addData] returns. *)
Lemma scrapeFromElement_mk (reg : ProviderRegistry.t) (doc : JsInput)
  (res : Metadata.t) (qs : list Selector) (element : Element) :
  seeded reg res ->
  Scraper.scrapeFromElement (Scraper.mk reg doc res qs) element
  = Scraper.Running
      (Scraper.mk reg doc (accumulate res (option_list (dispatchCall reg element))) qs).
Proof.
  intros Hseeded. unfold Scraper.scrapeFromElement, dispatchCall.
  cbn [Scraper.registry Scraper.result Scraper.queries].
  destruct (ProviderRegistry.scrapeFromElement reg element) as [[p d]|] eqn:E;
    [|reflexivity].
  destruct (scrapeLoop_some _ _ _ _ E) as (l1 & l2 & Hps & _).
  assert (Hu : usable (Metadata.providerData res) (name p) = true).
  { apply entry_usable. unfold seeded, ProviderRegistry.getProviders in Hseeded.
    rewrite Hps in Hseeded. apply Forall_app in Hseeded as [_ Hp].
    by apply Forall_cons in Hp as [Hp _]. }
  cbv [option_list option_rect]. rewrite accumulate_cons, (addData_usable _ _ _ _ Hu).
  reflexivity.
Qed.

Lemma forEach_mk (tags : list Element) (reg : ProviderRegistry.t) (doc : JsInput)
  (res : Metadata.t) (qs : list Selector) :
  seeded reg res ->
  Scraper.forEach tags (Scraper.mk reg doc res qs)
  = Scraper.Running
      (Scraper.mk reg doc (accumulate res (omap (dispatchCall reg) tags)) qs).
Proof.
  revert res. induction tags as [|tag tags IH]; intros res Hseeded; [reflexivity|].
  cbn [Scraper.forEach]. rewrite (scrapeFromElement_mk _ _ _ _ _ Hseeded).
  cbn [Scraper.andThen]. rewrite IH by by apply accumulate_seeded.
  rewrite <- accumulate_app. cbn [omap list_omap].
  by destruct (dispatchCall reg tag).
Qed.

(** The phases of the first [title] and of the first [h1]. *)
Lemma first_mk (sel : Selector) (reg : ProviderRegistry.t) (d : Document)
  (res : Metadata.t) (qs : list Selector) :
  seeded reg res ->
  match querySelector d sel with
  | Some tag =>
      Scraper.scrapeFromElement
        (Scraper.asked (Scraper.mk reg (InDocument d) res qs) sel) tag
  | None => Scraper.Running (Scraper.asked (Scraper.mk reg (InDocument d) res qs) sel)
  end
  = Scraper.Running
      (Scraper.mk reg (InDocument d)
         (accumulate res (omap (dispatchCall reg) (option_list (querySelector d sel))))
         (qs ++ [sel])).
Proof.
  intros Hseeded. unfold Scraper.asked.
  cbn [Scraper.registry Scraper.document Scraper.result Scraper.queries].
  destruct (querySelector d sel) as [tag|]; [|reflexivity].
  rewrite (scrapeFromElement_mk _ _ _ _ _ Hseeded).
  cbv [option_list option_rect]. cbn [omap list_omap].
  by destruct (dispatchCall reg tag).
Qed.

Lemma scrapeFeedLink_mk (reg : ProviderRegistry.t) (doc : JsInput)
  (pd : ProviderData) (rg : ProviderRegistry.t) (fs : list Feed)
  (qs : list Selector) (tag : Element) :
  matches SelLinkAlternate tag = true ->
  Scraper.scrapeFeedLink (Scraper.mk reg doc (Metadata.mk pd rg fs) qs) tag
  = Scraper.mk reg doc (Metadata.mk pd rg (fs ++ feedRecords tag)) qs.
Proof.
  intros Hm. unfold Scraper.scrapeFeedLink, feedRecords. rewrite Hm.
  cbn [Scraper.result].
  destruct (getAttribute tag "href") as [[|c s]|]; cbn [String.eqb];
    try by rewrite app_nil_r.
  unfold Scraper.withResult, Metadata.pushFeed. cbn. do 5 f_equal.
  - by destruct (getAttribute tag "title") as [[|c' s']|].
  - by destruct (getAttribute tag "type") as [[|c' s']|].
Qed.

Lemma scrapeFeedLinks_mk (tags : list Element) (reg : ProviderRegistry.t)
  (doc : JsInput) (pd : ProviderData) (rg : ProviderRegistry.t) (fs : list Feed)
  (qs : list Selector) :
  Forall (fun tag => matches SelLinkAlternate tag = true) tags ->
  foldl Scraper.scrapeFeedLink (Scraper.mk reg doc (Metadata.mk pd rg fs) qs) tags
  = Scraper.mk reg doc (Metadata.mk pd rg (fs ++ flat_map feedRecords tags)) qs.
Proof.
  intros Htags. revert fs.
  induction Htags as [|tag tags Htag _ IH]; intros fs; cbn [foldl flat_map].
  - by rewrite app_nil_r.
  - by rewrite (scrapeFeedLink_mk _ _ _ _ _ _ _ Htag), IH, <- app_assoc.
Qed.

Lemma feedRecords_selected (elems : list Element) :
  flat_map feedRecords (List.filter (matches SelLinkAlternate) elems)
  = flat_map feedRecords elems.
Proof.
  induction elems as [|e elems IH]; [reflexivity|]. cbn [List.filter flat_map].
  destruct (matches SelLinkAlternate e) eqn:E; cbn [flat_map]; rewrite IH; [reflexivity|].
  unfold feedRecords at 2. by rewrite E.
Qed.

(** The five phases on a document, from a state whose accumulator holds a
    Map for every provider. *)
Lemma run_mk (reg : ProviderRegistry.t) (d : Document) (res : Metadata.t)
  (qs : list Selector) :
  seeded reg res ->
  Scraper.run (Scraper.mk reg (InDocument d) res qs)
  = Scraper.Running
      (Scraper.mk reg (InDocument d)
         {| Metadata.providerData :=
              Metadata.providerData
                (accumulate res (omap (dispatchCall reg) (phaseNodes d)));
            Metadata.registry := Metadata.registry res;
            Metadata.feeds :=
              (Metadata.feeds res ++ flat_map feedRecords (elements d))%list |}
         (qs ++ [SelMeta; SelTitle; SelH1; SelLinkRel; SelLinkAlternate])).
Proof.
  intros Hseeded. unfold Scraper.run.
  unfold Scraper.scrapeMetaTags, Scraper.asked.
  cbn [Scraper.registry Scraper.document Scraper.result Scraper.queries inputDocument].
  rewrite (forEach_mk _ _ _ _ _ Hseeded). cbn [Scraper.andThen].
  set (r1 := accumulate res _).
  assert (H1 : seeded reg r1) by by apply accumulate_seeded.
  unfold Scraper.scrapeTitleTag.
  cbn [Scraper.document hasQuerySelector inputDocument].
  rewrite (first_mk SelTitle _ _ _ _ H1). cbn [Scraper.andThen].
  set (r2 := accumulate r1 _).
  assert (H2 : seeded reg r2) by by apply accumulate_seeded.
  unfold Scraper.scrapeHeadingTags.
  cbn [Scraper.document hasQuerySelector inputDocument].
  rewrite (first_mk SelH1 _ _ _ _ H2). cbn [Scraper.andThen].
  set (r3 := accumulate r2 _).
  assert (H3 : seeded reg r3) by by apply accumulate_seeded.
  unfold Scraper.scrapeLinkTags, Scraper.asked.
  cbn [Scraper.registry Scraper.document Scraper.result Scraper.queries inputDocument].
  rewrite (forEach_mk _ _ _ _ _ H3). cbn [Scraper.andThen].
  set (r4 := accumulate r3 _).
  assert (Hr4 : r4 = accumulate res (omap (dispatchCall reg) (phaseNodes d))).
  { unfold r4, r3, r2, r1, phaseNodes. by rewrite !omap_app, !accumulate_app. }
  unfold Scraper.scrapeFeedLinks, Scraper.asked.
  cbn [Scraper.registry Scraper.document Scraper.result Scraper.queries inputDocument].
  destruct (accumulate_keeps (omap (dispatchCall reg) (phaseNodes d)) res)
    as (Hr & Hf & _).
  rewrite <- Hr4 in Hr, Hf |- *. destruct r4 as [pd4 rg4 fs4].
  cbn [Metadata.registry Metadata.feeds Metadata.providerData] in *. subst rg4 fs4.
  rewrite scrapeFeedLinks_mk.
  - unfold querySelectorAll. rewrite feedRecords_selected.
    by rewrite <- !app_assoc.
  - unfold querySelectorAll. apply Forall_forall. intros e He.
    apply list_elem_of_In, List.filter_In in He. tauto.
Qed.

(** [scrape] on a document, the constructor having returned. *)
Lemma scrape_record (reg : ProviderRegistry.t) (d : Document) (fresh : Metadata.t) :
  Metadata.new (Some reg) = ret fresh ->
  Scraper.scrape reg (InDocument d)
  = (ret {| Metadata.providerData :=
              Metadata.providerData
                (accumulate fresh (omap (dispatchCall reg) (phaseNodes d)));
            Metadata.registry := reg;
            Metadata.feeds := flat_map feedRecords (elements d) |},
     [SelMeta; SelTitle; SelH1; SelLinkRel; SelLinkAlternate]).
Proof.
  intros Hnew. unfold Scraper.scrape.
  cbn [inputTruthy hasQuerySelectorAll negb orb]. rewrite Hnew. unfold ret at 1.
  rewrite (run_mk _ _ _ _ (new_seeded _ _ Hnew)).
  destruct (new_ret _ _ Hnew) as (_ & -> & ->). reflexivity.
Qed.

Lemma scrape_new_throws (reg : ProviderRegistry.t) (d : Document) (err : JsError) :
  Metadata.new (Some reg) = throw err ->
  Scraper.scrape reg (InDocument d) = (throw err, []).
Proof.
  intros Hnew. unfold Scraper.scrape.
  cbn [inputTruthy hasQuerySelectorAll negb orb]. by rewrite Hnew.
Qed.

(** C4, as the code has it.  The feeds of a scraped document are, in
    document order, one record for every link element whose [rel] is
    [alternate], compared without regard to the case of the ASCII letters,
    and whose [href] is a non-empty string, made of the title (kept when a
    non-empty string), the type (the empty string when absent) and the
    href; any other element contributes none.  The list does not depend on
    the registry: feeds do not go through the dispatch.  The scrape returns
    whenever the constructor of the accumulator does, which it does for
    every registry without a provider named [__proto__]; what the
    constructor throws, the scrape throws. *)
Theorem feeds_extraction_rule (registry : ProviderRegistry.t) (document : Document) :
  (forall fresh, Metadata.new (Some registry) = ret fresh ->
     exists m,
       (Scraper.scrape registry (InDocument document)).1 = ret m
       /\ Metadata.feeds m = flat_map feedRecords (elements document))
  /\ (forall m, (Scraper.scrape registry (InDocument document)).1 = ret m ->
        Metadata.feeds m = flat_map feedRecords (elements document))
  /\ (forall err, Metadata.new (Some registry) = throw err ->
        (Scraper.scrape registry (InDocument document)).1 = throw err)
  /\ ("__proto__" ∉ map name (ProviderRegistry.getProviders registry) ->
      exists fresh, Metadata.new (Some registry) = ret fresh).
Proof.
  split; [|split; [|split]].
  - intros fresh Hnew. rewrite (scrape_record _ _ _ Hnew). by eexists.
  - intros m. destruct (Metadata.new (Some registry)) as [err|fresh] eqn:Hnew.
    + by rewrite (scrape_new_throws _ _ _ Hnew).
    + rewrite (scrape_record _ _ _ Hnew). by intros [= <-].
  - intros err Hnew. by rewrite (scrape_new_throws _ _ _ Hnew).
  - apply new_plain.
Qed.

(** The example of the specification, scraped with the four providers of
    the sources: one record for the link with an href. *)
Lemma feeds_extraction_rule_witness :
  let registry :=
    ProviderRegistry.new
      [OpenGraphProvider.new; TwitterProvider.new;
       StandardMetaProvider.new; OtherElementsProvider.new] in
  let document :=
    mkDocument
      [mkElement (Some "LINK")
         [("rel", "alternate"); ("type", "application/rss+xml");
          ("title", "Feed"); ("href", "/f.xml")] (Some "")] in
  exists m,
    (Scraper.scrape registry (InDocument document)).1 = ret m
    /\ Metadata.feeds m = flat_map feedRecords (elements document).
Proof.
  intros registry document.
  destruct (Metadata.new (Some registry)) as [err|fresh] eqn:E; [discriminate E|].
  exact (proj1 (feeds_extraction_rule registry document) fresh E).
Defined.

(** The example of the specification: one record with an href, none
    without; and the [rel] in capitals is the same [rel]. *)
Lemma feeds_example :
  let link attrs := mkElement (Some "LINK") attrs (Some "") in
  feedRecords
    (link [("rel", "alternate"); ("type", "application/rss+xml");
           ("title", "Feed"); ("href", "/f.xml")])
  = [ {| feed_title := Some "Feed"; feed_type := "application/rss+xml";
         feed_href := "/f.xml" |} ]
  /\ feedRecords
       (link [("rel", "alternate"); ("type", "application/rss+xml"); ("title", "Feed")])
     = []
  /\ feedRecords (link [("rel", "Alternate"); ("href", "/f.xml")])
     = [ {| feed_title := None; feed_type := ""; feed_href := "/f.xml" |} ]
  /\ feedRecords (link [("rel", "alternate stylesheet"); ("href", "/f.xml")]) = [].
Proof. by repeat split. Qed.

(** C4, counterexample.  Read as it stands, the statement fails on
    attributes that are present and empty, and on a [rel] that is not
    exactly [alternate].  A link whose [rel] is [alternate] and whose
    [href] attribute is present, with the empty string for value, yields no
    record; a title attribute that is present and empty is recorded as an
    absent title; and a link whose [rel] is [ALTERNATE] yields a record. *)
Lemma feeds_href_present_counterexample :
  let registry :=
    ProviderRegistry.new
      [OpenGraphProvider.new; TwitterProvider.new;
       StandardMetaProvider.new; OtherElementsProvider.new] in
  let link attrs := mkElement (Some "LINK") attrs (Some "") in
  let noHref := link [("rel", "alternate"); ("href", "")] in
  let noTitle := link [("rel", "alternate"); ("title", ""); ("href", "/f.xml")] in
  let capitals := link [("rel", "ALTERNATE"); ("href", "/f.xml")] in
  let feedsOf element :=
    match (Scraper.scrape registry (InDocument (mkDocument [element]))).1 with
    | inr m => Some (Metadata.feeds m)
    | inl _ => None
    end in
  (matches SelLinkAlternate noHref = true
   /\ getAttribute noHref "href" = Some ""
   /\ feedsOf noHref = Some [])
  /\ (matches SelLinkAlternate noTitle = true
      /\ getAttribute noTitle "title" = Some ""
      /\ feedsOf noTitle
         = Some [ {| feed_title := None; feed_type := ""; feed_href := "/f.xml" |} ])
  /\ (getAttribute capitals "rel" = Some "ALTERNATE"
      /\ feedsOf capitals
         = Some [ {| feed_title := None; feed_type := ""; feed_href := "/f.xml" |} ]).
Proof. vm_compute. by repeat split. Qed.

(** ** The providers *)

Lemma truthy_true (o : option string) :
  Js.truthy o = true <-> exists s, o = Some s /\ s <> "".
Proof.
  destruct o as [[|c s]|]; simpl; split; try done.
  - intros (s & [= <-] & Hs). done.
  - intros _. by eexists.
  - intros (s & [=] & _).
Qed.

Lemma not_startsWith (o : option string) (prefix : string) :
  negb (Js.truthyb (Js.startsWith_opt o prefix)) = true
  <-> forall s, o = Some s -> Js.startsWith s prefix = false.
Proof.
  destruct o as [s|]; simpl.
  - rewrite negb_true_iff. split; [by intros H s' [= <-] | by intros H; apply H].
  - by split.
Qed.

(** C5, as the code has it.  [StandardMetaProvider] recognises exactly the
    elements, of whatever tag, that have a non-empty [content], a non-empty
    [name] or a non-empty [property], and neither a [name] nor a [property]
    that starts with [og:] or [twitter:]; the tag name and the text are not
    looked at. *)
Theorem standardMeta_canHandle_rule (element : Element) :
  (StandardMetaProvider.canHandle element = true <->
     (exists content, getAttribute element "content" = Some content /\ content <> "")
     /\ ((exists n, getAttribute element "name" = Some n /\ n <> "")
         \/ (exists p, getAttribute element "property" = Some p /\ p <> ""))
     /\ (forall n, getAttribute element "name" = Some n ->
                   Js.startsWith n "og:" = false /\ Js.startsWith n "twitter:" = false)
     /\ (forall p, getAttribute element "property" = Some p ->
                   Js.startsWith p "og:" = false /\ Js.startsWith p "twitter:" = false))
  /\ (forall tag text,
        StandardMetaProvider.canHandle (mkElement tag (attributes element) text)
        = StandardMetaProvider.canHandle element).
Proof.
  split; [|reflexivity].
  unfold StandardMetaProvider.canHandle.
  rewrite !andb_true_iff, !not_startsWith, !truthy_true.
  assert (Hor : (exists s, Js.or (getAttribute element "name")
                             (getAttribute element "property") = Some s /\ s <> "")
                <-> ((exists n, getAttribute element "name" = Some n /\ n <> "")
                     \/ (exists p, getAttribute element "property" = Some p /\ p <> ""))).
  { unfold Js.or. destruct (getAttribute element "name") as [[|c s]|]; simpl.
    - split; [by right|]. intros [(n & [= <-] & Hn)|H]; done.
    - split; [intros _; left; by eexists | intros _; by eexists].
    - split; [by right|]. intros [(n & [=] & _)|H]; done. }
  rewrite Hor. clear Hor. split.
  - intros (((((Hc & Hnp) & Hn1) & Hn2) & Hp1) & Hp2).
    repeat split; try done; auto.
  - intros (Hc & Hnp & Hn & Hp).
    repeat split; try done; intros s Hs; [apply Hn | apply Hn | apply Hp | apply Hp]; done.
Qed.

(** C5, counterexample.  Read as it stands, the statement fails on the tag
    and on an empty name.  A [div] element with a name and a content is recognised though it is no
    meta element; a meta element whose only key is a [name] attribute that
    is present and empty is not recognised. *)
Lemma standardMeta_canHandle_counterexample :
  let div := mkElement (Some "DIV") [("name", "x"); ("content", "y")] (Some "") in
  let meta := mkElement (Some "META") [("name", ""); ("content", "y")] (Some "") in
  (tagIs div "meta" = false /\ StandardMetaProvider.canHandle div = true)
  /\ (tagIs meta "meta" = true
      /\ getAttribute meta "name" = Some ""
      /\ StandardMetaProvider.canHandle meta = false).
Proof. vm_compute. by repeat split. Qed.

Lemma trimStart_blank (s : string) : isBlank s = true -> Js.trimStart s = "".
Proof.
  induction s as [|c s IH]; simpl; [done|].
  intros H. apply andb_true_iff in H as [Hc Hs]. rewrite Hc. by apply IH.
Qed.

Lemma trim_blank (s : string) : isBlank s = true -> Js.trim s = "".
Proof. intros H. unfold Js.trim. by rewrite trimStart_blank. Qed.

Lemma tagIs_other (element : Element) (t t' : string) :
  tagIs element t = true -> t <> t' -> tagIs element t' = false.
Proof.
  unfold tagIs. destruct (lowerTagName element) as [s|]; [|done].
  intros H Hne. apply String.eqb_eq in H as ->. by apply String.eqb_neq.
Qed.

(** C6. For [OtherElementsProvider], a title element (or an h1 element)
    whose text is made of white space only, and is not empty, yields the
    pair of its key and the empty string; a title or h1 element whose text
    is absent or empty yields none. *)
Theorem otherElements_blank_text (element : Element) :
  (forall text,
      textContent element = Some text -> text <> "" -> isBlank text = true ->
      (tagIs element "title" = true ->
       OtherElementsProvider.scrape element = Some {| key := "title"; value := "" |})
      /\ (tagIs element "h1" = true ->
          OtherElementsProvider.scrape element
          = Some {| key := "firstHeading"; value := "" |}))
  /\ (textContent element = None \/ textContent element = Some "" ->
      tagIs element "title" = true \/ tagIs element "h1" = true ->
      OtherElementsProvider.scrape element = None).
Proof.
  split.
  - intros text Htext Hne Hblank.
    assert (Ht : Js.truthy (textContent element) = true)
      by (rewrite Htext; by apply truthy_Some).
    unfold OtherElementsProvider.scrape. rewrite Ht, Htext. simpl.
    rewrite (trim_blank _ Hblank). split; intros Htag.
    + by rewrite Htag.
    + rewrite (tagIs_other _ _ "title" Htag) by done. by rewrite Htag.
  - intros Htext Htag.
    assert (Ht : Js.truthy (textContent element) = false)
      by (by destruct Htext as [-> | ->]).
    unfold OtherElementsProvider.scrape. rewrite Ht, !andb_false_r.
    destruct Htag as [Htag|Htag]; by rewrite (tagIs_other _ _ "link" Htag).
Qed.

(** A title of three blanks, and an empty h1. *)
Lemma otherElements_blank_text_witness :
  OtherElementsProvider.scrape (mkElement (Some "TITLE") [] (Some "   "))
  = Some {| key := "title"; value := "" |}
  /\ OtherElementsProvider.scrape (mkElement (Some "H1") [] (Some "")) = None.
Proof.
  split.
  - apply (proj1 (otherElements_blank_text (mkElement (Some "TITLE") [] (Some "   ")))
             "   "); [reflexivity | discriminate | reflexivity | reflexivity].
  - apply (proj2 (otherElements_blank_text (mkElement (Some "H1") [] (Some ""))));
      [right; reflexivity | right; reflexivity].
Defined.

Lemma slice_drops_prefix (pre s : string) :
  Js.slice (String.length pre) (pre +:+ s) = s.
Proof. induction pre as [|c pre IH]; simpl; [by destruct s | exact IH]. Qed.

(** C10. When the [property] attribute is a non-empty string without the
    provider's prefix, the [name] attribute has the prefix and the content
    is non-empty, the key extracted is the value of [property] less its
    first 8 code units for [TwitterProvider], less its first 3 for
    [OpenGraphProvider]: the prefix is not taken off the [name] that made
    the provider recognise the node. *)
Theorem prefix_stripped_from_property (element : Element)
  (property name content : string) :
  getAttribute element "property" = Some property -> property <> "" ->
  getAttribute element "name" = Some name ->
  getAttribute element "content" = Some content -> content <> "" ->
  (Js.startsWith property "twitter:" = false -> Js.startsWith name "twitter:" = true ->
   TwitterProvider.scrape element
   = Some {| key := Js.slice 8 property; value := content |})
  /\ (Js.startsWith property "og:" = false -> Js.startsWith name "og:" = true ->
      OpenGraphProvider.scrape element
      = Some {| key := Js.slice 3 property; value := content |}).
Proof.
  intros Hproperty Hp Hname Hcontent Hc.
  assert (Hor : Js.or (Some property) (Some name) = Some property)
    by (by destruct property).
  assert (Htp : Js.truthy (Some property) = true) by (by apply truthy_Some).
  assert (Htc : Js.truthy (Some content) = true) by (by apply truthy_Some).
  split; intros Hno Hyes.
  - unfold TwitterProvider.scrape, TwitterProvider.canHandle.
    rewrite Hproperty, Hname, Hcontent, Hor, Htp, Htc. simpl.
    by rewrite Hno, Hyes.
  - unfold OpenGraphProvider.scrape, OpenGraphProvider.canHandle.
    rewrite Hproperty, Hname, Hcontent, Hor, Htp, Htc. simpl.
    by rewrite Hno, Hyes.
Qed.

(** A meta element whose property is [article:tag]: the key is [tag] for
    Twitter, [icle:tag] for Open Graph. *)
Lemma prefix_stripped_from_property_witness :
  TwitterProvider.scrape
    (mkElement (Some "META")
       [("property", "article:tag"); ("name", "twitter:card"); ("content", "c")] None)
  = Some {| key := "tag"; value := "c" |}
  /\ OpenGraphProvider.scrape
       (mkElement (Some "META")
          [("property", "article:tag"); ("name", "og:type"); ("content", "c")] None)
     = Some {| key := "icle:tag"; value := "c" |}.
Proof.
  split.
  - apply (proj1 (prefix_stripped_from_property
                    (mkElement (Some "META")
                       [("property", "article:tag"); ("name", "twitter:card");
                        ("content", "c")] None)
                    "article:tag" "twitter:card" "c"
                    eq_refl ltac:(discriminate) eq_refl eq_refl ltac:(discriminate)));
      reflexivity.
  - apply (proj2 (prefix_stripped_from_property
                    (mkElement (Some "META")
                       [("property", "article:tag"); ("name", "og:type");
                        ("content", "c")] None)
                    "article:tag" "og:type" "c"
                    eq_refl ltac:(discriminate) eq_refl eq_refl ltac:(discriminate)));
      reflexivity.
Defined.

(** ** Thrown failures of the driver *)







(** ** The examples of the specification, run on the four providers *)

Lemma dispatch_examples :
  let registry :=
    ProviderRegistry.new
      [OtherElementsProvider.new; StandardMetaProvider.new;
       TwitterProvider.new; OpenGraphProvider.new] in
  let meta attrs := mkElement (Some "META") attrs (Some "") in
  ProviderRegistry.getProviders registry
  = [OpenGraphProvider.new; TwitterProvider.new;
     StandardMetaProvider.new; OtherElementsProvider.new]
  /\ ProviderRegistry.scrapeFromElement registry
       (meta [("property", "og:title"); ("content", "Hello")])
     = Some (OpenGraphProvider.new, {| key := "title"; value := "Hello" |})
  /\ ProviderRegistry.scrapeFromElement registry
       (meta [("property", "twitter:card"); ("content", "summary")])
     = Some (TwitterProvider.new, {| key := "card"; value := "summary" |}).
Proof. vm_compute. by repeat split. Qed.

(** Equal priorities keep the order of registration. *)
Lemma registration_order_example :
  let p n q := mkProvider n q (fun _ => false) (fun _ => None)
                          (fun key data => Js.firstOf (data !! key)) in
  map name
    (ProviderRegistry.getProviders
       (ProviderRegistry.new
          [p "a" 3%Q; p "b" 1%Q; p "c" 3%Q; p "d" (1 # 2)%Q; p "e" 1%Q; p "f" 3%Q]))
  = ["d"; "b"; "e"; "a"; "c"; "f"].
Proof. reflexivity. Qed.

(** A title of blanks and a heading: the empty title is accumulated, the
    resolution passes over it, and the title getter falls back on the
    heading. *)
Lemma blank_title_example :
  let registry :=
    ProviderRegistry.new
      [OpenGraphProvider.new; TwitterProvider.new;
       StandardMetaProvider.new; OtherElementsProvider.new] in
  let document :=
    mkDocument [mkElement (Some "TITLE") [] (Some "  ");
                mkElement (Some "H1") [] (Some " Heading ")] in
  match (Scraper.scrape registry (InDocument document)).1 with
  | inr m =>
      Metadata.other m !! "title" = Some [""]
      /\ Metadata.resolveValue m "title" = ret None
      /\ Metadata.title m = ret (Some "Heading")
  | inl _ => False
  end.
Proof. vm_compute. by repeat split. Qed.

(** * Further properties of the sources *)

(** ** The accumulator: what [addData] stores *)

Lemma written_cons (n k n' k' v : string) (calls : list (string * string * string)) :
  written n k ((n', k', v) :: calls)
  = if String.eqb n' n && String.eqb k' k
    then v :: written n k calls
    else written n k calls.
Proof.
  unfold written. cbn [omap list_omap fst snd].
  by destruct (String.eqb n' n && String.eqb k' k).
Qed.

Lemma namespace_insert_same (m m' : Metadata.t) (n k : string) (l : list string) :
  Metadata.providerData m'
  = <[n := <[k := l]> (Metadata.namespace m n)]> (Metadata.providerData m) ->
  Metadata.namespace m' n !! k = Some l.
Proof.
  intros H. unfold Metadata.namespace at 1. rewrite H, lookup_insert_eq.
  cbv [default from_option id]. by rewrite lookup_insert_eq.
Qed.

Lemma namespace_insert_other (m m' : Metadata.t) (n' k' n k : string)
  (l : list string) :
  Metadata.providerData m'
  = <[n' := <[k' := l]> (Metadata.namespace m n')]> (Metadata.providerData m) ->
  String.eqb n' n && String.eqb k' k = false ->
  Metadata.namespace m' n !! k = Metadata.namespace m n !! k.
Proof.
  intros H E. unfold Metadata.namespace at 1. rewrite H.
  destruct (String.eqb n' n) eqn:En.
  - apply String.eqb_eq in En as ->. simpl in E. apply String.eqb_neq in E.
    rewrite lookup_insert_eq. cbv [default from_option id].
    by rewrite lookup_insert_ne.
  - apply String.eqb_neq in En. by rewrite lookup_insert_ne.
Qed.

(** The calls that return: those under a usable name. *)
Lemma accumulate_written (calls : list (string * string * string)) (n k : string)
  (m : Metadata.t) :
  Metadata.namespace (accumulate m calls) n !! k
  = match written n k
            (List.filter (fun call => usable (Metadata.providerData m) call.1.1) calls)
    with
    | [] => Metadata.namespace m n !! k
    | vs => Some (default [] (Metadata.namespace m n !! k) ++ vs)%list
    end.
Proof.
  revert m. induction calls as [|[[n' k'] v] calls IH]; intros m; [reflexivity|].
  rewrite accumulate_cons. cbn [List.filter fst snd].
  destruct (usable (Metadata.providerData m) n') eqn:Hu.
  - rewrite (addData_usable _ _ _ _ Hu). unfold ret.
    set (m' := {| Metadata.providerData := _ |}).
    assert (Hm' : Metadata.providerData m'
                  = <[n' := <[k' := (default [] (Metadata.namespace m n' !! k')
                                     ++ [v])%list]>
                              (Metadata.namespace m n')]> (Metadata.providerData m))
      by reflexivity.
    rewrite IH.
    rewrite (List.filter_ext _ (fun call => usable (Metadata.providerData m) call.1.1))
      by (intros call; apply (insert_usable _ _ _ _ Hu)).
    rewrite written_cons.
    destruct (String.eqb n' n && String.eqb k' k) eqn:E.
    + rewrite (andb_true_iff _ _) in E. destruct E as [En Ek].
      apply String.eqb_eq in En. apply String.eqb_eq in Ek. subst n' k'.
      rewrite (namespace_insert_same _ _ _ _ _ Hm'). cbv [default from_option id].
      destruct (written n k _); [reflexivity|]. by rewrite <- app_assoc.
    + by rewrite (namespace_insert_other _ _ _ _ _ _ _ Hm' E).
  - destruct (addData_unusable m n' k' v Hu) as [err ->]. apply IH.
Qed.

Lemma written_usable (u : string -> bool) (n k : string)
  (calls : list (string * string * string)) :
  u n = true ->
  written n k (List.filter (fun call => u call.1.1) calls) = written n k calls.
Proof.
  intros Hu. induction calls as [|[[n' k'] v] calls IH]; [reflexivity|].
  cbn [List.filter fst snd]. rewrite written_cons.
  destruct (String.eqb n' n) eqn:En.
  - apply String.eqb_eq in En as ->. rewrite Hu, written_cons, String.eqb_refl.
    by rewrite IH.
  - cbn [andb]. destruct (u n'); [|exact IH].
    by rewrite written_cons, En, IH.
Qed.

Lemma new_namespace (registry : option ProviderRegistry.t) (m : Metadata.t)
  (n : string) :
  Metadata.new registry = ret m -> Metadata.namespace m n = ∅.
Proof.
  intros (Hseed & _ & _)%new_ret. unfold Metadata.namespace.
  rewrite (seed_lookup _ _ _ n Hseed), lookup_empty. by case_bool_decide.
Qed.

Lemma accumulate_fresh (calls : list (string * string * string)) (n k : string)
  (registry : option ProviderRegistry.t) (fresh : Metadata.t) :
  Metadata.new registry = ret fresh ->
  Metadata.namespace (accumulate fresh calls) n !! k
  = match written n k
            (List.filter (fun call => usable (Metadata.providerData fresh) call.1.1)
                         calls)
    with
    | [] => None
    | vs => Some vs
    end.
Proof.
  intros Hnew. rewrite accumulate_written, (new_namespace _ _ n Hnew), lookup_empty.
  by destruct (written n k _).
Qed.

(** X1. One call of [addData] under a name that reads as a Map, or as
    nothing, puts the value at the end of the list of the name and key, the
    empty list when there was none; under any other name, one that reads as
    an inherited member or whose read throws, the call throws.  After any
    run of calls, those that throw being caught, the list a name holds for
    a key is the list it held before followed by the values the returning
    calls wrote for that name and key, in call order, nothing being
    dropped, merged or overwritten; a name and key no such call names are
    left as they were.  On a fresh accumulator the list is exactly the
    values written. *)
Theorem accumulate_values (calls : list (string * string * string)) (n k : string) :
  (forall (m : Metadata.t) v,
      (usable (Metadata.providerData m) n = true ->
       Metadata.addData m n k v
       = ret {| Metadata.providerData :=
                  <[n := <[k := (default [] (Metadata.namespace m n !! k) ++ [v])%list]>
                           (Metadata.namespace m n)]> (Metadata.providerData m);
                Metadata.registry := Metadata.registry m;
                Metadata.feeds := Metadata.feeds m |})
      /\ (usable (Metadata.providerData m) n = false ->
          exists err, Metadata.addData m n k v = throw err))
  /\ (forall m : Metadata.t,
      Metadata.namespace (accumulate m calls) n !! k
      = match written n k
                (List.filter (fun call => usable (Metadata.providerData m) call.1.1)
                             calls)
        with
        | [] => Metadata.namespace m n !! k
        | vs => Some (default [] (Metadata.namespace m n !! k) ++ vs)%list
        end)
  /\ (forall registry fresh,
      Metadata.new registry = ret fresh ->
      Metadata.namespace (accumulate fresh calls) n !! k
      = match written n k
                (List.filter
                   (fun call => usable (Metadata.providerData fresh) call.1.1) calls)
        with
        | [] => None
        | vs => Some vs
        end)
  /\ (forall m : Metadata.t,
      usable (Metadata.providerData m) n = true ->
      written n k
        (List.filter (fun call => usable (Metadata.providerData m) call.1.1) calls)
      = written n k calls).
Proof.
  split; [|split; [|split]].
  - intros m v. split; [apply addData_usable | apply addData_unusable].
  - apply accumulate_written.
  - intros registry fresh. apply accumulate_fresh.
  - intros m. apply written_usable.
Qed.

(** Two Open Graph titles and a call under [toString], which throws: the
    two titles are held, in the order written. *)
Lemma accumulate_values_witness :
  match
    Metadata.new
      (Some (ProviderRegistry.new
               [OpenGraphProvider.new; TwitterProvider.new;
                StandardMetaProvider.new; OtherElementsProvider.new]))
  with
  | inr fresh =>
      Metadata.namespace
        (accumulate fresh
           [("openGraph", "title", "A"); ("toString", "title", "B");
            ("openGraph", "title", "C")])
        "openGraph" !! "title"
      = Some ["A"; "C"]
  | inl _ => False
  end.
Proof.
  destruct (Metadata.new _) as [err|fresh] eqn:E; [discriminate E|].
  rewrite (proj1 (proj2 (proj2 (accumulate_values _ "openGraph" "title"))) _ fresh E).
  injection E as <-. reflexivity.
Defined.

Lemma new_plain_opt (registry : option ProviderRegistry.t) :
  "__proto__"
    ∉ map name
        (ProviderRegistry.getProviders (default (ProviderRegistry.new []) registry)) ->
  exists m, Metadata.new registry = ret m.
Proof.
  intros Hn. unfold Metadata.new.
  assert (Hi : JsObject.installed (∅ : ProviderData) = false)
    by (unfold JsObject.installed; by rewrite lookup_empty).
  destruct (seed_plain _ ∅ Hn Hi) as [pd Hpd].
  exists {| Metadata.providerData := pd;
            Metadata.registry := default (ProviderRegistry.new []) registry;
            Metadata.feeds := [] |}.
  cbv zeta. by rewrite Hpd.
Qed.

(** X2. A new accumulator holds an empty map for exactly the names of the
    providers of its registry (the empty registry when none is given), no
    feed, and that registry; and the getter of a name space returns the
    empty map for every name, seeded or not.  The constructor returns
    whenever no provider is named [__proto__], and without a registry it
    returns the accumulator of no property. *)
Theorem new_seeds_registry (registry : option ProviderRegistry.t) (n : string) :
  let reg := default (ProviderRegistry.new []) registry in
  (forall m, Metadata.new registry = ret m ->
     Metadata.providerData m !! n
     = (if bool_decide (n ∈ map name (ProviderRegistry.getProviders reg))
        then Some ∅ else None)
     /\ Metadata.namespace m n = ∅
     /\ Metadata.registry m = reg
     /\ Metadata.feeds m = [])
  /\ ("__proto__" ∉ map name (ProviderRegistry.getProviders reg) ->
      exists m, Metadata.new registry = ret m)
  /\ Metadata.new None
     = ret {| Metadata.providerData := ∅;
              Metadata.registry := ProviderRegistry.new [];
              Metadata.feeds := [] |}.
Proof.
  intros reg. split; [|split; [apply new_plain_opt | reflexivity]].
  intros m Hnew. destruct (new_ret _ _ Hnew) as (Hseed & Hreg & Hfeeds).
  repeat split; try done.
  - rewrite (seed_lookup _ _ _ n Hseed). by rewrite lookup_empty.
  - by eapply new_namespace.
Qed.

(** The accumulator of the four providers of the sources holds an empty
    map under [twitter]. *)
Lemma new_seeds_registry_witness :
  match
    Metadata.new
      (Some (ProviderRegistry.new
               [OpenGraphProvider.new; TwitterProvider.new;
                StandardMetaProvider.new; OtherElementsProvider.new]))
  with
  | inr m => Metadata.providerData m !! "twitter" = Some ∅
  | inl _ => False
  end.
Proof.
  destruct (Metadata.new _) as [err|m] eqn:E; [discriminate E|].
  exact (proj1 (proj1 (new_seeds_registry _ "twitter") m E)).
Defined.

(** ** The registry: lookup by name, and what a registration moves *)

Lemma new_stable (initial : list MetadataProvider) :
  let ps := ProviderRegistry.getProviders (ProviderRegistry.new initial) in
  ascending ps
  /\ (forall q, withPriority q ps = withPriority q initial)
  /\ ps ≡ₚ initial.
Proof.
  unfold ProviderRegistry.new.
  apply (register_all_stable initial {| ProviderRegistry.providers := [] |}).
  constructor.
Qed.

Lemma find_first (n : string) (ps : list MetadataProvider) (p : MetadataProvider) :
  List.find (fun q => String.eqb (name q) n) ps = Some p
  <-> exists l1 l2, ps = (l1 ++ p :: l2)%list
        /\ name p = n /\ Forall (fun q => name q <> n) l1.
Proof.
  induction ps as [|a ps IH]; simpl.
  - split; [done|]. intros ([|? ?] & l2 & H & _); discriminate.
  - destruct (String.eqb (name a) n) eqn:E.
    + apply String.eqb_eq in E. split.
      * intros [= <-]. exists [], ps. by repeat split.
      * intros ([|b l1] & l2 & Heq & Hp & Hl1); simpl in Heq.
        -- by injection Heq as -> _.
        -- injection Heq as -> _. apply Forall_cons in Hl1 as [Hb _]. done.
    + apply String.eqb_neq in E. rewrite IH. split.
      * intros (l1 & l2 & -> & Hp & Hl1). exists (a :: l1), l2.
        repeat split; [done | by constructor].
      * intros ([|b l1] & l2 & Heq & Hp & Hl1); simpl in Heq.
        -- injection Heq as -> _. done.
        -- injection Heq as -> ->. apply Forall_cons in Hl1 as [_ Hl1].
           by exists l1, l2.
Qed.

Lemma find_none (n : string) (ps : list MetadataProvider) :
  List.find (fun q => String.eqb (name q) n) ps = None
  <-> Forall (fun q => name q <> n) ps.
Proof.
  induction ps as [|a ps IH]; simpl; [by split; [constructor|]|].
  destruct (String.eqb (name a) n) eqn:E.
  - apply String.eqb_eq in E. split; [done|].
    intros [Ha _]%Forall_cons. done.
  - apply String.eqb_neq in E. rewrite IH. split.
    + intros H. by constructor.
    + by intros [_ H]%Forall_cons.
Qed.

(** X3. [getProvider] returns the first provider of the ordered list that
    bears the name, none exactly when no registered provider bears it; when
    several providers share the name, the one returned has the smallest
    priority number among them. *)
Theorem getProvider_first (initial : list MetadataProvider) (n : string) :
  let reg := ProviderRegistry.new initial in
  (forall p,
      ProviderRegistry.getProvider reg n = Some p <->
      exists l1 l2,
        ProviderRegistry.getProviders reg = (l1 ++ p :: l2)%list
        /\ name p = n /\ Forall (fun q => name q <> n) l1)
  /\ (ProviderRegistry.getProvider reg n = None <->
      Forall (fun q => name q <> n) initial)
  /\ (forall p q,
      ProviderRegistry.getProvider reg n = Some p ->
      q ∈ initial -> name q = n -> (priority p <= priority q)%Q).
Proof.
  intros reg. subst reg.
  destruct (new_stable initial) as (Hasc & _ & Hperm).
  unfold ProviderRegistry.getProvider, ProviderRegistry.getProviders in *.
  split; [|split].
  - intros p. apply find_first.
  - rewrite find_none, !Forall_forall.
    split; intros H q Hq; apply H; [by rewrite Hperm | by rewrite <- Hperm].
  - intros p q Hp Hq Hn.
    apply find_first in Hp as (l1 & l2 & Heq & Hpn & Hl1).
    rewrite Heq in Hasc, Hperm.
    destruct (ascending_split _ _ _ Hasc) as [_ Hl2].
    rewrite <- Hperm in Hq.
    apply elem_of_app in Hq as [Hq|Hq].
    + rewrite Forall_forall in Hl1. by destruct (Hl1 q Hq).
    + apply elem_of_cons in Hq as [->|Hq]; [apply Qle_refl|].
      rewrite Forall_forall in Hl2. by apply Hl2.
Qed.

Lemma providers_new_sort (initial : list MetadataProvider) :
  ProviderRegistry.getProviders (ProviderRegistry.new initial)
  = JsArray.sort ProviderRegistry.byPriority initial.
Proof.
  destruct (new_stable initial) as (Hasc & Hk & _).
  by apply (sort_unique priority).
Qed.

Lemma sort_ascending (ps : list MetadataProvider) :
  ascending ps -> JsArray.sort ProviderRegistry.byPriority ps = ps.
Proof. intros Hasc. symmetry. by apply (sort_unique priority). Qed.

Lemma insertSorted_split (p : MetadataProvider) (ps : list MetadataProvider) :
  ascending ps ->
  exists l1 l2,
    ps = (l1 ++ l2)%list
    /\ JsArray.insertSorted ProviderRegistry.byPriority p ps = (l1 ++ p :: l2)%list
    /\ Forall (fun q => (priority q <= priority p)%Q) l1
    /\ Forall (fun q => (priority p < priority q)%Q) l2.
Proof.
  unfold ascending. induction ps as [|a ps IH]; intros Hasc.
  - exists [], []. by repeat split.
  - apply StronglySorted_inv in Hasc as [Hps Ha]. cbn [JsArray.insertSorted].
    destruct (JsArray.after ProviderRegistry.byPriority a p) eqn:E.
    + apply (after_true priority) in E. exists [], (a :: ps).
      repeat split; [constructor|].
      constructor; [exact E|].
      eapply Forall_impl; [exact Ha|]. intros w Hw. simpl in Hw. lra.
    + apply (after_false priority) in E.
      destruct (IH Hps) as (l1 & l2 & -> & Hins & Hl1 & Hl2).
      exists (a :: l1), l2. rewrite Hins. repeat split; [|done].
      by constructor.
Qed.

(** X4. Registering a provider inserts it into the ordered list and moves
    nothing else: the providers registered before keep their places
    relative to one another, the new one standing behind every provider of
    priority no greater than its own and before every provider of greater
    priority. *)
Theorem registerProvider_inserts (initial : list MetadataProvider)
  (p : MetadataProvider) :
  let reg := ProviderRegistry.new initial in
  exists l1 l2,
    ProviderRegistry.getProviders reg = (l1 ++ l2)%list
    /\ ProviderRegistry.getProviders (ProviderRegistry.registerProvider reg p)
       = (l1 ++ p :: l2)%list
    /\ Forall (fun q => (priority q <= priority p)%Q) l1
    /\ Forall (fun q => (priority p < priority q)%Q) l2.
Proof.
  intros reg.
  assert (Hasc : ascending (ProviderRegistry.getProviders reg))
    by apply new_ascending.
  destruct (insertSorted_split p _ Hasc) as (l1 & l2 & Heq & Hins & Hl1 & Hl2).
  exists l1, l2. repeat split; try done.
  unfold ProviderRegistry.registerProvider, ProviderRegistry.getProviders in *.
  simpl. unfold JsArray.sort. rewrite foldl_snoc.
  fold (JsArray.sort ProviderRegistry.byPriority (ProviderRegistry.providers reg)).
  by rewrite (sort_ascending _ Hasc).
Qed.

Lemma filter_perm {A} (f : A -> bool) (l1 l2 : list A) :
  l1 ≡ₚ l2 -> List.filter f l1 ≡ₚ List.filter f l2.
Proof.
  induction 1 as [|x l1 l2 _ IH|x y l|l1 l2 l3 _ IH1 _ IH2]; simpl.
  - reflexivity.
  - destruct (f x); [by constructor | done].
  - destruct (f x), (f y); try reflexivity. apply Permutation_swap.
  - by etrans.
Qed.

Lemma distinct_at_most_one (ps : list MetadataProvider) (q : Q) :
  distinctPriorities ps = true -> length (withPriority q ps) <= 1.
Proof.
  induction ps as [|p ps IH]; simpl; [lia|].
  intros [Hp Hps]%andb_true_iff. specialize (IH Hps).
  unfold withPriority in *. simpl.
  destruct (Qeq_bool (priority p) q) eqn:E; [|exact IH].
  apply Qeq_bool_iff in E.
  assert (Hnone : List.filter (fun p0 => Qeq_bool (priority p0) q) ps = []).
  { clear IH Hps. induction ps as [|a ps IH]; [reflexivity|]. simpl in *.
    apply andb_true_iff in Hp as [Ha Hp]. apply negb_true_iff in Ha.
    destruct (Qeq_bool (priority a) q) eqn:Ea; [|by apply IH].
    apply Qeq_bool_iff in Ea. apply Qeq_bool_neq in Ha. destruct Ha.
    by rewrite E, Ea. }
  rewrite Hnone. simpl. lia.
Qed.

(** X5. Registering providers one at a time builds the list one stable sort
    of all of them would build; so when no two of them have the same
    priority, the order of the registrations has no effect on the
    registry. *)
Theorem registration_order_irrelevant :
  (forall initial,
      ProviderRegistry.getProviders (ProviderRegistry.new initial)
      = JsArray.sort ProviderRegistry.byPriority initial)
  /\ (forall l1 l2,
      l1 ≡ₚ l2 -> distinctPriorities l1 = true ->
      ProviderRegistry.new l1 = ProviderRegistry.new l2).
Proof.
  split; [exact providers_new_sort|].
  intros l1 l2 Hperm Hdistinct.
  assert (Heq : ProviderRegistry.getProviders (ProviderRegistry.new l1)
                = ProviderRegistry.getProviders (ProviderRegistry.new l2)).
  { destruct (new_stable l1) as (Hs1 & Hk1 & _).
    destruct (new_stable l2) as (Hs2 & Hk2 & _).
    apply (stable_sorted_unique priority); [done | done |].
    intros q. specialize (Hk1 q). specialize (Hk2 q). unfold withPriority in *.
    rewrite Hk1, Hk2.
    pose proof (filter_perm (fun p => Qeq_bool (priority p) q) _ _ Hperm) as Hf.
    pose proof (distinct_at_most_one l1 q Hdistinct) as Hlen.
    unfold withPriority in Hlen.
    destruct (List.filter _ l1) as [|a [|b l]] eqn:E1; simpl in Hlen; [| |lia].
    - by apply Permutation_nil_l in Hf.
    - by apply Permutation_singleton_l in Hf. }
  unfold ProviderRegistry.getProviders in Heq.
  destruct (ProviderRegistry.new l1), (ProviderRegistry.new l2). simpl in Heq.
  by rewrite Heq.
Qed.

(** The four providers of the sources, registered in two orders. *)
Lemma registration_order_irrelevant_witness :
  ProviderRegistry.new
    [OtherElementsProvider.new; OpenGraphProvider.new;
     StandardMetaProvider.new; TwitterProvider.new]
  = ProviderRegistry.new
      [OpenGraphProvider.new; OtherElementsProvider.new;
       TwitterProvider.new; StandardMetaProvider.new].
Proof.
  apply (proj2 registration_order_irrelevant); [|reflexivity].
  etransitivity; [apply perm_swap|]. do 2 apply perm_skip. apply perm_swap.
Defined.

(** ** The providers: what they recognise and what they extract *)

Lemma recognises_prefix (property name : option string) (prefix : string) :
  Js.nullish
    (Js.orb_opt (Js.startsWith_opt property prefix) (Js.startsWith_opt name prefix))
    false = true
  <-> (exists s, property = Some s /\ Js.startsWith s prefix = true)
      \/ (exists s, name = Some s /\ Js.startsWith s prefix = true).
Proof.
  destruct property as [p|], name as [n|]; simpl;
    unfold Js.orb_opt, Js.nullish; simpl.
  - destruct (Js.startsWith p prefix) eqn:Ep; simpl.
    + split; [intros _; left; by eexists | done].
    + split; [intros H; right; by eexists|].
      intros [(s & [= <-] & H)|(s & [= <-] & H)]; congruence.
  - destruct (Js.startsWith p prefix) eqn:Ep; simpl.
    + split; [intros _; left; by eexists | done].
    + split; [done|]. intros [(s & [= <-] & H)|(s & [=] & _)]; congruence.
  - split; [intros H; right; by eexists|].
    intros [(s & [=] & _)|(s & [= <-] & H)]; done.
  - split; [done|]. intros [(s & [=] & _)|(s & [=] & _)].
Qed.

Lemma or_truthy (a b : option string) :
  Js.truthy (Js.or a b) = Js.truthy a || Js.truthy b.
Proof. unfold Js.or. by destruct (Js.truthy a) eqn:E; simpl. Qed.

Lemma startsWith_nonempty (s : string) (c : ascii) (prefix : string) :
  Js.startsWith s (String c prefix) = true -> Js.truthy (Some s) = true.
Proof. by destruct s. Qed.

Lemma recognised_truthy (property name : option string) (c : ascii) (prefix : string) :
  Js.nullish
    (Js.orb_opt (Js.startsWith_opt property (String c prefix))
                (Js.startsWith_opt name (String c prefix)))
    false = true ->
  Js.truthy (Js.or property name) = true.
Proof.
  intros H. rewrite or_truthy.
  apply recognises_prefix in H as [(s & -> & H)|(s & -> & H)];
    rewrite (startsWith_nonempty _ _ _ H); [done | apply orb_true_r].
Qed.

(** X6. The Open Graph and Twitter providers recognise a node exactly when
    its [property] or its [name] is present and starts with the prefix, an
    absent attribute counting as not starting with it.  They extract from
    it exactly when they recognise it and its content is a non-empty
    string; the key is then the value of [property], or of [name] when
    [property] is absent or empty, less its first 3 (resp. 8) code units,
    and the value is the content. *)
Theorem prefixed_providers_rule (element : Element) :
  (OpenGraphProvider.canHandle element = true <->
     (exists s, getAttribute element "property" = Some s /\ Js.startsWith s "og:" = true)
     \/ (exists s, getAttribute element "name" = Some s /\ Js.startsWith s "og:" = true))
  /\ (TwitterProvider.canHandle element = true <->
     (exists s, getAttribute element "property" = Some s
                /\ Js.startsWith s "twitter:" = true)
     \/ (exists s, getAttribute element "name" = Some s
                   /\ Js.startsWith s "twitter:" = true))
  /\ (forall kv,
      OpenGraphProvider.scrape element = Some kv <->
      OpenGraphProvider.canHandle element = true
      /\ exists a c,
          Js.or (getAttribute element "property") (getAttribute element "name") = Some a
          /\ getAttribute element "content" = Some c /\ c <> ""
          /\ kv = {| key := Js.slice 3 a; value := c |})
  /\ (forall kv,
      TwitterProvider.scrape element = Some kv <->
      TwitterProvider.canHandle element = true
      /\ exists a c,
          Js.or (getAttribute element "property") (getAttribute element "name") = Some a
          /\ getAttribute element "content" = Some c /\ c <> ""
          /\ kv = {| key := Js.slice 8 a; value := c |}).
Proof.
  split; [apply recognises_prefix|]. split; [apply recognises_prefix|]. split.
  - intros kv. unfold OpenGraphProvider.scrape. split.
    + destruct (negb _ || negb _ || negb _) eqn:G; [done|].
      apply orb_false_iff in G as [G Hcan]. apply orb_false_iff in G as [Ha Hc].
      apply negb_false_iff in Hcan, Ha, Hc.
      destruct (Js.or _ _) as [a|]; [|done].
      destruct (getAttribute element "content") as [c|]; [|done].
      intros [= <-]. split; [done|]. exists a, c.
      repeat split. by apply truthy_Some.
    + intros (Hcan & a & c & Ha & Hc & Hne & ->).
      pose proof (recognised_truthy _ _ _ _ Hcan) as Ht.
      rewrite Hcan, Ht, Ha, Hc. by rewrite (proj2 (truthy_Some c) Hne).
  - intros kv. unfold TwitterProvider.scrape. split.
    + destruct (negb _ || negb _ || negb _) eqn:G; [done|].
      apply orb_false_iff in G as [G Hcan]. apply orb_false_iff in G as [Ha Hc].
      apply negb_false_iff in Hcan, Ha, Hc.
      destruct (Js.or _ _) as [a|]; [|done].
      destruct (getAttribute element "content") as [c|]; [|done].
      intros [= <-]. split; [done|]. exists a, c.
      repeat split. by apply truthy_Some.
    + intros (Hcan & a & c & Ha & Hc & Hne & ->).
      pose proof (recognised_truthy _ _ _ _ Hcan) as Ht.
      rewrite Hcan, Ht, Ha, Hc. by rewrite (proj2 (truthy_Some c) Hne).
Qed.

(** X7. [StandardMetaProvider] extracts from exactly the nodes it
    recognises: the key is then the value of [name], or of [property] when
    [name] is absent or empty, and the value is the content. *)
Theorem standardMeta_scrape_rule (element : Element) (kv : KeyValue) :
  StandardMetaProvider.scrape element = Some kv <->
  StandardMetaProvider.canHandle element = true
  /\ exists a c,
      Js.or (getAttribute element "name") (getAttribute element "property") = Some a
      /\ getAttribute element "content" = Some c
      /\ kv = {| key := a; value := c |}.
Proof.
  unfold StandardMetaProvider.scrape. split.
  - destruct (negb _ || negb _ || negb _) eqn:G; [done|].
    apply orb_false_iff in G as [G Hcan]. apply orb_false_iff in G as [Ha Hc].
    apply negb_false_iff in Hcan, Ha, Hc.
    destruct (Js.or _ _) as [a|]; [|done].
    destruct (getAttribute element "content") as [c|]; [|done].
    intros [= <-]. split; [done|]. by exists a, c.
  - intros (Hcan & a & c & Ha & Hc & ->).
    pose proof Hcan as Hcan'. unfold StandardMetaProvider.canHandle in Hcan'.
    rewrite !andb_true_iff in Hcan'.
    destruct Hcan' as (((((Htc & Htn) & _) & _) & _) & _).
    by rewrite Hcan, Htn, Htc, Ha, Hc.
Qed.

(** X8. [OtherElementsProvider] extracts in three cases and no other: from
    a title with a non-empty text, the trimmed text under [title]; from an
    h1 with a non-empty text, the trimmed text under [firstHeading]; from a
    link whose [rel] is exactly [icon] or [shortcut icon] and whose [href]
    is a non-empty string, the href under the rel.  It extracts only from
    nodes it recognises. *)
Theorem otherElements_scrape_rule (element : Element) (kv : KeyValue) :
  (OtherElementsProvider.scrape element = Some kv <->
     (tagIs element "title" = true
      /\ exists text, textContent element = Some text /\ text <> ""
                      /\ kv = {| key := "title"; value := Js.trim text |})
     \/ (tagIs element "h1" = true
         /\ exists text, textContent element = Some text /\ text <> ""
                         /\ kv = {| key := "firstHeading"; value := Js.trim text |})
     \/ (tagIs element "link" = true
         /\ exists rel href,
             getAttribute element "rel" = Some rel
             /\ (rel = "icon" \/ rel = "shortcut icon")
             /\ getAttribute element "href" = Some href /\ href <> ""
             /\ kv = {| key := rel; value := href |}))
  /\ (OtherElementsProvider.scrape element = Some kv ->
      OtherElementsProvider.canHandle element = true).
Proof.
  assert (Hiff : OtherElementsProvider.scrape element = Some kv <->
     (tagIs element "title" = true
      /\ exists text, textContent element = Some text /\ text <> ""
                      /\ kv = {| key := "title"; value := Js.trim text |})
     \/ (tagIs element "h1" = true
         /\ exists text, textContent element = Some text /\ text <> ""
                         /\ kv = {| key := "firstHeading"; value := Js.trim text |})
     \/ (tagIs element "link" = true
         /\ exists rel href,
             getAttribute element "rel" = Some rel
             /\ (rel = "icon" \/ rel = "shortcut icon")
             /\ getAttribute element "href" = Some href /\ href <> ""
             /\ kv = {| key := rel; value := href |})).
  { unfold OtherElementsProvider.scrape. split.
    - destruct (tagIs element "title" && Js.truthy (textContent element)) eqn:E1.
      { apply andb_true_iff in E1 as [Htag (text & Htext & Hne)%truthy_true].
        rewrite Htext. simpl. intros [= <-]. left. split; [done|]. by exists text. }
      destruct (tagIs element "h1" && Js.truthy (textContent element)) eqn:E2.
      { apply andb_true_iff in E2 as [Htag (text & Htext & Hne)%truthy_true].
        rewrite Htext. simpl. intros [= <-]. right. left. split; [done|].
        by exists text. }
      destruct (tagIs element "link") eqn:E3; [|done].
      destruct (getAttribute element "rel") as [r|] eqn:Er; [|done].
      destruct (getAttribute element "href") as [h|] eqn:Eh; [|done].
      destruct (Js.truthy (Some r) && Js.truthy (Some h)) eqn:E4; [|done].
      apply andb_true_iff in E4 as [_ Hh%truthy_Some].
      destruct (String.eqb r "icon") eqn:Ei.
      { apply String.eqb_eq in Ei as ->. intros [= <-]. right. right.
        split; [done|]. exists "icon", h. repeat split; try done. by left. }
      destruct (String.eqb r "shortcut icon") eqn:Es; [|done].
      apply String.eqb_eq in Es as ->. intros [= <-]. right. right.
      split; [done|]. exists "shortcut icon", h. repeat split; try done. by right.
    - intros [(Htag & text & Htext & Hne & ->)
             |[(Htag & text & Htext & Hne & ->)
              |(Htag & rel & href & Hrel & Hr & Hhref & Hne & ->)]].
      + rewrite Htag, Htext, (proj2 (truthy_Some text) Hne). reflexivity.
      + rewrite (tagIs_other _ _ "title" Htag) by done.
        rewrite Htag, Htext, (proj2 (truthy_Some text) Hne). reflexivity.
      + rewrite (tagIs_other _ _ "title" Htag), (tagIs_other _ _ "h1" Htag) by done.
        rewrite Htag, Hrel, Hhref, (proj2 (truthy_Some href) Hne). simpl.
        by destruct Hr as [-> | ->]. }
  split; [exact Hiff|].
  intros H. apply Hiff in H. unfold OtherElementsProvider.canHandle.
  destruct H as [(Htag & _)|[(Htag & _)|(Htag & rel & href & Hrel & Hr & _)]].
  - by rewrite Htag.
  - rewrite Htag. by rewrite orb_true_r.
  - rewrite Htag, Hrel. destruct Hr as [-> | ->]; simpl; apply orb_true_r.
Qed.

Lemma startsWith_app (prefix rest : string) :
  Js.startsWith (prefix +:+ rest) prefix = true.
Proof.
  unfold Js.startsWith. induction prefix as [|c prefix IH]; simpl.
  - by destruct rest.
  - by destruct (ascii_dec c c).
Qed.

(** X9. Prefix and key go round: a node whose [property] is the prefix
    followed by [k], or whose [property] is absent or empty and whose
    [name] is the prefix followed by [k], and whose content is a non-empty
    string, yields the key [k] and the content, for both prefixed
    providers. *)
Theorem prefix_round_trip (element : Element) (k c : string) :
  getAttribute element "content" = Some c -> c <> "" ->
  (getAttribute element "property" = Some ("og:" +:+ k)
   \/ (Js.truthy (getAttribute element "property") = false
       /\ getAttribute element "name" = Some ("og:" +:+ k)) ->
   OpenGraphProvider.scrape element = Some {| key := k; value := c |})
  /\ (getAttribute element "property" = Some ("twitter:" +:+ k)
      \/ (Js.truthy (getAttribute element "property") = false
          /\ getAttribute element "name" = Some ("twitter:" +:+ k)) ->
      TwitterProvider.scrape element = Some {| key := k; value := c |}).
Proof.
  intros Hc Hne.
  assert (Htc : Js.truthy (Some c) = true) by (by apply truthy_Some).
  split.
  - intros H.
    assert (Hcan : OpenGraphProvider.canHandle element = true).
    { apply recognises_prefix.
      destruct H as [H|[_ H]]; [left | right];
        eexists; (split; [exact H | apply (startsWith_app "og:")]). }
    unfold OpenGraphProvider.scrape. rewrite Hcan, Hc, Htc.
    destruct H as [H|[Hp H]].
    + by rewrite H.
    + unfold Js.or. by rewrite Hp, H.
  - intros H.
    assert (Hcan : TwitterProvider.canHandle element = true).
    { apply recognises_prefix.
      destruct H as [H|[_ H]]; [left | right];
        eexists; (split; [exact H | apply (startsWith_app "twitter:")]). }
    unfold TwitterProvider.scrape. rewrite Hcan, Hc, Htc.
    destruct H as [H|[Hp H]].
    + by rewrite H.
    + unfold Js.or. by rewrite Hp, H.
Qed.

(** The examples of the tests: [og:title] and [twitter:card]. *)
Lemma prefix_round_trip_witness :
  OpenGraphProvider.scrape
    (mkElement (Some "META") [("property", "og:title"); ("content", "Hello")] None)
  = Some {| key := "title"; value := "Hello" |}
  /\ TwitterProvider.scrape
       (mkElement (Some "META") [("name", "twitter:card"); ("content", "summary")] None)
     = Some {| key := "card"; value := "summary" |}.
Proof.
  split.
  - apply (proj1 (prefix_round_trip
                    (mkElement (Some "META")
                       [("property", "og:title"); ("content", "Hello")] None)
                    "title" "Hello" eq_refl ltac:(discriminate))).
    left. reflexivity.
  - apply (proj2 (prefix_round_trip
                    (mkElement (Some "META")
                       [("name", "twitter:card"); ("content", "summary")] None)
                    "card" "summary" eq_refl ltac:(discriminate))).
    right. split; reflexivity.
Defined.

(** ** Dispatch over the providers of [loadDefaults] *)

Lemma og_unrecognised (element : Element) :
  OpenGraphProvider.canHandle element = false ->
  OpenGraphProvider.scrape element = None.
Proof. intros H. unfold OpenGraphProvider.scrape. by rewrite H, orb_true_r. Qed.

Lemma twitter_unrecognised (element : Element) :
  TwitterProvider.canHandle element = false ->
  TwitterProvider.scrape element = None.
Proof. intros H. unfold TwitterProvider.scrape. by rewrite H, orb_true_r. Qed.

Lemma standardMeta_unrecognised (element : Element) :
  StandardMetaProvider.canHandle element = false ->
  StandardMetaProvider.scrape element = None.
Proof. intros H. unfold StandardMetaProvider.scrape. by rewrite H, orb_true_r. Qed.

Lemma other_unrecognised (element : Element) :
  OtherElementsProvider.canHandle element = false ->
  OtherElementsProvider.scrape element = None.
Proof.
  unfold OtherElementsProvider.canHandle, OtherElementsProvider.scrape.
  intros H. apply orb_false_iff in H as [H Hlink].
  apply orb_false_iff in H as [-> ->]. simpl.
  destruct (tagIs element "link"); [|done]. simpl in Hlink.
  destruct (getAttribute element "rel") as [r|]; [|done].
  destruct (getAttribute element "href") as [h|]; [|done].
  by rewrite Hlink.
Qed.

Lemma standardMeta_excludes_prefixed (element : Element) :
  StandardMetaProvider.canHandle element = true ->
  OpenGraphProvider.canHandle element = false
  /\ TwitterProvider.canHandle element = false.
Proof.
  unfold StandardMetaProvider.canHandle. rewrite !andb_true_iff, !not_startsWith.
  intros (((((_ & _) & Hn1) & Hn2) & Hp1) & Hp2).
  split; apply not_true_iff_false; intros H;
    apply recognises_prefix in H as [(s & Hs & H)|(s & Hs & H)].
  - by rewrite (Hp1 s Hs) in H.
  - by rewrite (Hn1 s Hs) in H.
  - by rewrite (Hp2 s Hs) in H.
  - by rewrite (Hn2 s Hs) in H.
Qed.

Lemma scrapeLoop_refusing (p : MetadataProvider) (rest : list MetadataProvider)
  (element : Element) :
  (canHandle p element = false -> scrape p element = None) ->
  ProviderRegistry.scrapeLoop (p :: rest) element
  = match scrape p element with
    | Some kv => Some (p, kv)
    | None => ProviderRegistry.scrapeLoop rest element
    end.
Proof.
  intros H. simpl. destruct (canHandle p element); [reflexivity|]. by rewrite H.
Qed.

Lemma default_scrapeLoop (element : Element) :
  ProviderRegistry.scrapeFromElement
    (ProviderRegistry.new ProviderLoader.loadDefaults) element
  = match OpenGraphProvider.scrape element with
    | Some kv => Some (OpenGraphProvider.new, kv)
    | None =>
        match TwitterProvider.scrape element with
        | Some kv => Some (TwitterProvider.new, kv)
        | None =>
            match StandardMetaProvider.scrape element with
            | Some kv => Some (StandardMetaProvider.new, kv)
            | None =>
                match OtherElementsProvider.scrape element with
                | Some kv => Some (OtherElementsProvider.new, kv)
                | None => None
                end
            end
        end
    end.
Proof.
  change (ProviderRegistry.scrapeFromElement
            (ProviderRegistry.new ProviderLoader.loadDefaults) element)
    with (ProviderRegistry.scrapeLoop ProviderLoader.loadDefaults element).
  unfold ProviderLoader.loadDefaults.
  rewrite (scrapeLoop_refusing OpenGraphProvider.new) by apply og_unrecognised.
  rewrite (scrapeLoop_refusing TwitterProvider.new) by apply twitter_unrecognised.
  rewrite (scrapeLoop_refusing StandardMetaProvider.new)
    by apply standardMeta_unrecognised.
  rewrite (scrapeLoop_refusing OtherElementsProvider.new) by apply other_unrecognised.
  reflexivity.
Qed.

(** X10. With the four providers of [loadDefaults], dispatch returns the
    first extraction that succeeds among Open Graph, Twitter, standard meta
    and the structural elements, in that order: every one of them refuses
    the nodes it does not recognise, so recognition need not be asked
    first.  A node the standard meta provider recognises is never taken by
    the two prefixed providers. *)
Theorem default_dispatch (element : Element) :
  ProviderRegistry.scrapeFromElement
    (ProviderRegistry.new ProviderLoader.loadDefaults) element
  = match OpenGraphProvider.scrape element with
    | Some kv => Some (OpenGraphProvider.new, kv)
    | None =>
        match TwitterProvider.scrape element with
        | Some kv => Some (TwitterProvider.new, kv)
        | None =>
            match StandardMetaProvider.scrape element with
            | Some kv => Some (StandardMetaProvider.new, kv)
            | None =>
                match OtherElementsProvider.scrape element with
                | Some kv => Some (OtherElementsProvider.new, kv)
                | None => None
                end
            end
        end
    end
  /\ (StandardMetaProvider.canHandle element = true ->
      OpenGraphProvider.scrape element = None
      /\ TwitterProvider.scrape element = None).
Proof.
  split; [apply default_scrapeLoop|].
  intros H. destruct (standardMeta_excludes_prefixed _ H) as [H1 H2].
  split; [by apply og_unrecognised | by apply twitter_unrecognised].
Qed.

Lemma og_value_nonempty (element : Element) (kv : KeyValue) :
  OpenGraphProvider.scrape element = Some kv -> value kv <> "".
Proof.
  unfold OpenGraphProvider.scrape.
  destruct (negb _ || negb _ || negb _) eqn:G; [done|].
  apply orb_false_iff in G as [G _]. apply orb_false_iff in G as [_ Hc].
  apply negb_false_iff in Hc.
  destruct (Js.or _ _); [|done].
  destruct (getAttribute element "content") as [c|]; [|done].
  intros [= <-]. by apply truthy_Some.
Qed.

Lemma twitter_value_nonempty (element : Element) (kv : KeyValue) :
  TwitterProvider.scrape element = Some kv -> value kv <> "".
Proof.
  unfold TwitterProvider.scrape.
  destruct (negb _ || negb _ || negb _) eqn:G; [done|].
  apply orb_false_iff in G as [G _]. apply orb_false_iff in G as [_ Hc].
  apply negb_false_iff in Hc.
  destruct (Js.or _ _); [|done].
  destruct (getAttribute element "content") as [c|]; [|done].
  intros [= <-]. by apply truthy_Some.
Qed.

Lemma standardMeta_value_nonempty (element : Element) (kv : KeyValue) :
  StandardMetaProvider.scrape element = Some kv -> value kv <> "" /\ key kv <> "".
Proof.
  unfold StandardMetaProvider.scrape.
  destruct (negb _ || negb _ || negb _) eqn:G; [done|].
  apply orb_false_iff in G as [G _]. apply orb_false_iff in G as [Ha Hc].
  apply negb_false_iff in Ha, Hc.
  destruct (Js.or _ _); [|done].
  destruct (getAttribute element "content") as [c|]; [|done].
  intros [= <-]. split; by apply truthy_Some.
Qed.

Lemma other_value_empty (element : Element) (kv : KeyValue) :
  OtherElementsProvider.scrape element = Some kv -> value kv = "" ->
  key kv = "title" \/ key kv = "firstHeading".
Proof.
  unfold OtherElementsProvider.scrape.
  destruct (tagIs element "title" && Js.truthy (textContent element)).
  { destruct (textContent element); [|done]. intros [= <-] _. by left. }
  destruct (tagIs element "h1" && Js.truthy (textContent element)).
  { destruct (textContent element); [|done]. intros [= <-] _. by right. }
  destruct (tagIs element "link"); [|done].
  destruct (getAttribute element "rel") as [r|]; [|done].
  destruct (getAttribute element "href") as [h|]; [|done].
  destruct (Js.truthy (Some r) && Js.truthy (Some h)) eqn:E; [|done].
  apply andb_true_iff in E as [_ Hh%truthy_Some].
  destruct (String.eqb r "icon"); [intros [= <-] Hv; done|].
  destruct (String.eqb r "shortcut icon"); [intros [= <-] Hv; done | done].
Qed.

(** X17. With the providers of [loadDefaults], the only empty value a node
    can contribute is the title or the first heading of the structural
    provider (a text of white space only): every value the Open Graph,
    Twitter and standard meta providers contribute, and every icon, is a
    non-empty string. *)
Theorem default_empty_values (element : Element) (n k : string) :
  dispatchCall (ProviderRegistry.new ProviderLoader.loadDefaults) element
  = Some (n, k, "") ->
  n = "other" /\ (k = "title" \/ k = "firstHeading").
Proof.
  unfold dispatchCall. rewrite default_scrapeLoop.
  destruct (OpenGraphProvider.scrape element) as [kv|] eqn:E1.
  { intros [= _ _ Hv]. by destruct (og_value_nonempty _ _ E1). }
  destruct (TwitterProvider.scrape element) as [kv|] eqn:E2.
  { intros [= _ _ Hv]. by destruct (twitter_value_nonempty _ _ E2). }
  destruct (StandardMetaProvider.scrape element) as [kv|] eqn:E3.
  { intros [= _ _ Hv]. by destruct (standardMeta_value_nonempty _ _ E3) as [H _]. }
  destruct (OtherElementsProvider.scrape element) as [kv|] eqn:E4; [|done].
  intros [= <- <- Hv]. split; [reflexivity|]. by apply (other_value_empty element).
Qed.

(** A title of blanks. *)
Lemma default_empty_values_witness :
  "other" = "other" /\ ("title" = "title" \/ "title" = "firstHeading").
Proof.
  apply (default_empty_values (mkElement (Some "TITLE") [] (Some "  "))).
  reflexivity.
Defined.

(** ** The scraper: what a run accumulates *)

(** X11. The result of scraping a document is determined, field by field:
    its accumulated data are those of a fresh accumulator after the
    [addData] calls of the dispatched nodes, taken in the order meta
    elements, first title, first h1, links with a [rel], each node giving at
    most one call; its registry is the scraper's; its feeds are the feed
    records of the document, a link counting whatever the case of the
    letters of its [rel].  This when the constructor of the accumulator
    returns; what it throws, the scrape throws. *)
Theorem scrape_result (registry : ProviderRegistry.t) (document : Document) :
  (forall fresh,
      Metadata.new (Some registry) = ret fresh ->
      Scraper.scrape registry (InDocument document)
      = (ret {| Metadata.providerData :=
                  Metadata.providerData
                    (accumulate fresh
                       (omap (dispatchCall registry) (phaseNodes document)));
                Metadata.registry := registry;
                Metadata.feeds := flat_map feedRecords (elements document) |},
         [SelMeta; SelTitle; SelH1; SelLinkRel; SelLinkAlternate]))
  /\ (forall err,
      Metadata.new (Some registry) = throw err ->
      Scraper.scrape registry (InDocument document) = (throw err, [])).
Proof.
  split; [apply scrape_record | apply scrape_new_throws].
Qed.

(** A page with an Open Graph title and a feed, the [rel] of the feed in
    capitals. *)
Lemma scrape_result_witness :
  let registry :=
    ProviderRegistry.new
      [OpenGraphProvider.new; TwitterProvider.new;
       StandardMetaProvider.new; OtherElementsProvider.new] in
  let document :=
    mkDocument
      [mkElement (Some "META") [("property", "og:title"); ("content", "Hello")]
         (Some "");
       mkElement (Some "LINK") [("rel", "ALTERNATE"); ("href", "/f.xml")] (Some "")] in
  match (Scraper.scrape registry (InDocument document)).1 with
  | inr m =>
      Metadata.openGraph m !! "title" = Some ["Hello"]
      /\ Metadata.feeds m
         = [ {| feed_title := None; feed_type := ""; feed_href := "/f.xml" |} ]
  | inl _ => False
  end.
Proof.
  intros registry document.
  destruct (Metadata.new (Some registry)) as [err|fresh] eqn:E; [discriminate E|].
  rewrite (proj1 (scrape_result registry document) fresh E).
  injection E as <-. by vm_compute.
Defined.

(** ** The getters of the accumulator *)

(** X12. The title is the value resolved for [title] when there is one,
    else the value resolved for [firstHeading]; the site name is the value
    resolved for [site_name], else the one for [site]; a resolution that
    throws makes the getter throw.  No getter ever returns the empty
    string: title, description, image, url and site name are absent or
    non-empty, and the favicon is non-empty. *)
Theorem getters_fall_back (m : Metadata.t) :
  Metadata.title m
  = match Metadata.resolveValue m "title" with
    | inl err => throw err
    | inr (Some v) => ret (Some v)
    | inr None => Metadata.resolveValue m "firstHeading"
    end
  /\ Metadata.siteName m
     = match Metadata.resolveValue m "site_name" with
       | inl err => throw err
       | inr (Some v) => ret (Some v)
       | inr None => Metadata.resolveValue m "site"
       end
  /\ Metadata.title m <> ret (Some "")
  /\ Metadata.description m <> ret (Some "")
  /\ Metadata.image m <> ret (Some "")
  /\ Metadata.url m <> ret (Some "")
  /\ Metadata.siteName m <> ret (Some "")
  /\ Metadata.favicon m <> ret "".
Proof.
  assert (Hne : forall key, Metadata.resolveValue m key <> ret (Some ""))
    by (intros key; apply resolveLoop_not_empty).
  assert (Htitle : Metadata.title m
                   = match Metadata.resolveValue m "title" with
                     | inl err => throw err
                     | inr (Some v) => ret (Some v)
                     | inr None => Metadata.resolveValue m "firstHeading"
                     end) by apply orElse_resolved.
  assert (Hsite : Metadata.siteName m
                  = match Metadata.resolveValue m "site_name" with
                    | inl err => throw err
                    | inr (Some v) => ret (Some v)
                    | inr None => Metadata.resolveValue m "site"
                    end) by apply orElse_resolved.
  repeat split; try done; try apply Hne.
  - rewrite Htitle. pose proof (Hne "title"). pose proof (Hne "firstHeading").
    by destruct (Metadata.resolveValue m "title") as [err|[v|]].
  - rewrite Hsite. pose proof (Hne "site_name"). pose proof (Hne "site").
    by destruct (Metadata.resolveValue m "site_name") as [err|[v|]].
  - rewrite favicon_chain. pose proof (Hne "icon") as Hi.
    pose proof (Hne "shortcut icon") as Hs.
    destruct (Metadata.resolveValue m "icon") as [err|[v|]]; [done| |].
    + intros [= ->]. by apply Hi.
    + destruct (Metadata.resolveValue m "shortcut icon") as [err|[v|]]; [done| |done].
      intros [= ->]. by apply Hs.
Qed.

(** ** The JSON-LD provider *)

(** X13. On a text that parses to an object whose [@type] is [Article] or
    [WebPage], the JSON-LD provider yields the first of: the headline under
    [title], the description under [description], the url of the image
    under [image], a member counting when it is truthy; with none of them
    it yields none, as it does when the [@type] is another value.  The url
    of the image is its [url] member when the image is an object, and is
    undefined when the image is a string, a number, a boolean or an array,
    which then yields none. *)
Theorem jsonLd_field_order (JSON_parse : string -> option Json) (carry : Json -> string)
  (element : Element) (text : string) (members : list (string * Json)) :
  textContent element = Some text -> text <> "" ->
  JSON_parse text = Some (JObject members) ->
  let member k := JsonLdProvider.lookupMember members k in
  let scraped := JsonLdProvider.scrape JSON_parse carry element in
  (JsonLdProvider.strictEqualsString (member "@type") "Article"
   || JsonLdProvider.strictEqualsString (member "@type") "WebPage" = true ->
   (JsonLdProvider.truthy (member "headline") = true ->
    scraped = Some {| key := "title";
                      value := JsonLdProvider.asValue carry (member "headline") |})
   /\ (JsonLdProvider.truthy (member "headline") = false ->
       JsonLdProvider.truthy (member "description") = true ->
       scraped = Some {| key := "description";
                         value := JsonLdProvider.asValue carry (member "description") |})
   /\ (JsonLdProvider.truthy (member "headline") = false ->
       JsonLdProvider.truthy (member "description") = false ->
       scraped
       = if JsonLdProvider.truthy (member "image")
            && JsonLdProvider.truthy (urlOf (member "image"))
         then Some {| key := "image";
                      value := JsonLdProvider.asValue carry (urlOf (member "image")) |}
         else None)
   /\ (JsonLdProvider.truthy (member "headline") = false ->
       JsonLdProvider.truthy (member "description") = false ->
       forall image,
         member "image" = Parsed (JObject image) ->
         scraped
         = if JsonLdProvider.truthy (JsonLdProvider.lookupMember image "url")
           then Some {| key := "image";
                        value := JsonLdProvider.asValue carry
                                   (JsonLdProvider.lookupMember image "url") |}
           else None)
   /\ (JsonLdProvider.truthy (member "headline") = false ->
       JsonLdProvider.truthy (member "description") = false ->
       (JsonLdProvider.truthy (member "image") = false
        \/ (forall image, member "image" <> Parsed (JObject image))) ->
       scraped = None))
  /\ (JsonLdProvider.strictEqualsString (member "@type") "Article"
      || JsonLdProvider.strictEqualsString (member "@type") "WebPage" = false ->
      scraped = None).
Proof.
  intros Htext Hne Hparse member scraped.
  assert (Hrun : scraped
                 = try_catch
                     (if JsonLdProvider.strictEqualsString (member "@type") "Article"
                      then JsonLdProvider.scrape_fields carry (Parsed (JObject members))
                      else if JsonLdProvider.strictEqualsString (member "@type") "WebPage"
                           then JsonLdProvider.scrape_fields carry
                                  (Parsed (JObject members))
                           else ret None)
                     (fun _ => None)).
  { unfold scraped, JsonLdProvider.scrape, JsonLdProvider.scrape_try,
      JsonLdProvider.parse.
    rewrite Htext, (proj2 (truthy_Some text) Hne). simpl. rewrite Hparse.
    reflexivity. }
  assert (Hfields : JsonLdProvider.strictEqualsString (member "@type") "Article"
                    || JsonLdProvider.strictEqualsString (member "@type") "WebPage" = true ->
                    scraped
                    = try_catch (JsonLdProvider.scrape_fields carry
                                   (Parsed (JObject members))) (fun _ => None)).
  { intros Ht. rewrite Hrun.
    destruct (JsonLdProvider.strictEqualsString (member "@type") "Article");
      [reflexivity|].
    simpl in Ht. by rewrite Ht. }
  assert (Himage : JsonLdProvider.truthy (member "headline") = false ->
                   JsonLdProvider.truthy (member "description") = false ->
                   try_catch (JsonLdProvider.scrape_fields carry
                                (Parsed (JObject members))) (fun _ => None)
                   = if JsonLdProvider.truthy (member "image")
                        && JsonLdProvider.truthy (urlOf (member "image"))
                     then Some {| key := "image";
                                  value := JsonLdProvider.asValue carry
                                             (urlOf (member "image")) |}
                     else None).
  { unfold JsonLdProvider.scrape_fields, member.
    cbn [JsonLdProvider.getProperty bind ret]. intros -> ->.
    destruct (JsonLdProvider.lookupMember members "image")
      as [|[|b|q|s|items|image]];
      cbn [JsonLdProvider.truthy JsonLdProvider.getProperty bind ret urlOf andb];
      try reflexivity.
    - by destruct b.
    - by destruct (negb (Qeq_bool q 0)).
    - by destruct (negb (String.eqb s "")).
    - by destruct (JsonLdProvider.truthy (JsonLdProvider.lookupMember image "url")). }
  split.
  - intros Ht. specialize (Hfields Ht). rewrite Hfields.
    split; [|split; [|split; [|split]]].
    + unfold JsonLdProvider.scrape_fields, member.
      cbn [JsonLdProvider.getProperty bind ret]. by intros ->.
    + unfold JsonLdProvider.scrape_fields, member.
      cbn [JsonLdProvider.getProperty bind ret]. by intros -> ->.
    + exact Himage.
    + intros Hh Hd image Hi. rewrite (Himage Hh Hd), Hi. reflexivity.
    + intros Hh Hd Hi. rewrite (Himage Hh Hd). destruct Hi as [->|Hi]; [reflexivity|].
      destruct (member "image") as [|[|b|q|s|items|image]];
        cbn [urlOf JsonLdProvider.truthy]; try by rewrite andb_false_r.
      by destruct (Hi image).
  - intros Ht. rewrite Hrun. apply orb_false_iff in Ht as [-> ->]. reflexivity.
Qed.

(** An article with a headline and a description: the headline wins. *)
Lemma jsonLd_field_order_witness :
  JsonLdProvider.scrape
    (fun _ => Some (JObject [("@type", JString "Article");
                             ("description", JString "D");
                             ("headline", JString "H")]))
    (fun _ => "")
    (mkElement (Some "SCRIPT") [("type", "application/ld+json")] (Some "{}"))
  = Some {| key := "title"; value := "H" |}.
Proof.
  apply (proj1 (proj1 (jsonLd_field_order
                         (fun _ => Some (JObject [("@type", JString "Article");
                                                  ("description", JString "D");
                                                  ("headline", JString "H")]))
                         (fun _ => "")
                         (mkElement (Some "SCRIPT") [("type", "application/ld+json")]
                            (Some "{}"))
                         "{}" _ eq_refl ltac:(discriminate) eq_refl)
                      eq_refl)).
  reflexivity.
Defined.

(** An image that is a string has no [url]: nothing is extracted. *)
Lemma jsonLd_image_string_example :
  JsonLdProvider.scrape
    (fun _ => Some (JObject [("@type", JString "Article");
                             ("image", JString "https://example.com/a.png")]))
    (fun _ => "")
    (mkElement (Some "SCRIPT") [("type", "application/ld+json")] (Some "{}"))
  = None.
Proof. reflexivity. Qed.

(** ** Trimmed text *)

Lemma trimStart_split (s : string) :
  exists pre, s = pre +:+ Js.trimStart s
              /\ isBlank pre = true /\ startsBlank (Js.trimStart s) = false.
Proof.
  induction s as [|c s IH]; [by exists ""|]. simpl.
  destruct (Js.isWhiteSpace c) eqn:E.
  - destruct IH as (pre & Heq & Hpre & Hstart). exists (String c pre).
    split; [change (String c s = String c (pre +:+ Js.trimStart s)); by rewrite <- Heq|].
    split; [simpl; by rewrite E | exact Hstart].
  - exists "". simpl. by rewrite E.
Qed.

Lemma trimEnd_split (s : string) :
  exists post, s = Js.trimEnd s +:+ post
               /\ isBlank post = true /\ endsBlank (Js.trimEnd s) = false.
Proof.
  induction s as [|c s IH]; [by exists ""|].
  destruct IH as (post & Heq & Hpost & Hend). cbn [Js.trimEnd].
  destruct (Js.trimEnd s) as [|d t] eqn:E.
  - change (s = post) in Heq. subst s. destruct (Js.isWhiteSpace c) eqn:Ec.
    + exists (String c post). simpl. by rewrite Ec.
    + exists post. simpl. by rewrite Ec.
  - exists post.
    split; [change (String c s = String c (String d t +:+ post)); by rewrite <- Heq|].
    by split.
Qed.

Lemma trimEnd_start (s : string) :
  startsBlank s = false -> startsBlank (Js.trimEnd s) = false.
Proof.
  destruct s as [|c s]; [done|]. cbn [Js.trimEnd startsBlank]. intros Hc.
  destruct (Js.trimEnd s); [by rewrite Hc | done].
Qed.

Lemma trim_split (s : string) :
  exists pre post,
    s = pre +:+ Js.trim s +:+ post
    /\ isBlank pre = true /\ isBlank post = true
    /\ startsBlank (Js.trim s) = false /\ endsBlank (Js.trim s) = false.
Proof.
  destruct (trimStart_split s) as (pre & Hs & Hpre & Hstart).
  destruct (trimEnd_split (Js.trimStart s)) as (post & Ht & Hpost & Hend).
  exists pre, post. unfold Js.trim. rewrite <- Ht.
  repeat split; try done. by apply trimEnd_start.
Qed.

(** X14. What [OtherElementsProvider] extracts from a title or an h1 is the
    text of the node less the white space around it and nothing else: the
    text is a run of white space, the value, and a run of white space, and
    the value neither begins nor ends with white space. *)
Theorem otherElements_value_trimmed (element : Element) (kv : KeyValue) :
  tagIs element "title" = true \/ tagIs element "h1" = true ->
  OtherElementsProvider.scrape element = Some kv ->
  exists text pre post,
    textContent element = Some text
    /\ text = pre +:+ value kv +:+ post
    /\ isBlank pre = true /\ isBlank post = true
    /\ startsBlank (value kv) = false /\ endsBlank (value kv) = false.
Proof.
  intros Htag Hscrape.
  assert (Hvalue : exists text, textContent element = Some text
                                /\ value kv = Js.trim text).
  { unfold OtherElementsProvider.scrape in Hscrape.
    destruct (textContent element) as [text|] eqn:Htext.
    - exists text. split; [done|].
      destruct (tagIs element "title" && Js.truthy (Some text));
        [by injection Hscrape as <-|].
      destruct (tagIs element "h1" && Js.truthy (Some text));
        [by injection Hscrape as <-|].
      destruct Htag as [Htag|Htag];
        by rewrite (tagIs_other _ _ "link" Htag) in Hscrape.
    - rewrite !andb_false_r in Hscrape.
      destruct Htag as [Htag|Htag];
        by rewrite (tagIs_other _ _ "link" Htag) in Hscrape. }
  destruct Hvalue as (text & Htext & ->).
  destruct (trim_split text) as (pre & post & H).
  by exists text, pre, post.
Qed.

(** A title between blanks and line breaks. *)
Lemma otherElements_value_trimmed_witness :
  exists text pre post,
    textContent (mkElement (Some "TITLE") [] (Some "  Page Title ")) = Some text
    /\ text = pre +:+ "Page Title" +:+ post
    /\ isBlank pre = true /\ isBlank post = true
    /\ startsBlank "Page Title" = false /\ endsBlank "Page Title" = false.
Proof.
  apply (otherElements_value_trimmed
           (mkElement (Some "TITLE") [] (Some "  Page Title "))
           {| key := "title"; value := "Page Title" |});
    [left; reflexivity | reflexivity].
Defined.

(** ** The files the loader imports *)

Lemma slice_add (a b : nat) (s : string) :
  Js.slice (a + b) s = Js.slice b (Js.slice a s).
Proof.
  revert s. induction a as [|a IH]; intros s; [reflexivity|].
  destruct s as [|c s]; simpl; [by destruct b | apply IH].
Qed.

Lemma endsWith_true (s suffix : string) :
  ProviderLoader.endsWith s suffix = true ->
  (String.length suffix <= String.length s)%nat
  /\ Js.slice (String.length s - String.length suffix) s = suffix.
Proof.
  unfold ProviderLoader.endsWith.
  destruct (String.length suffix <=? String.length s)%nat eqn:E; [|done].
  apply Nat.leb_le in E. intros H%String.eqb_eq. by split.
Qed.

(** X15. The loader imports exactly the directory entries whose name ends
    in [.js], in the order of the directory: a name that ends in [.js] never
    ends in [.d.ts], so the second test of the filter excludes nothing. *)
Theorem providerFiles_js (files : list string) :
  ProviderLoader.providerFiles files
  = List.filter (fun file => ProviderLoader.endsWith file ".js") files
  /\ (forall file, ProviderLoader.endsWith file ".js" = true ->
                   ProviderLoader.endsWith file ".d.ts" = false).
Proof.
  assert (Hnever : forall file, ProviderLoader.endsWith file ".js" = true ->
                                ProviderLoader.endsWith file ".d.ts" = false).
  { intros file Hjs. apply not_true_iff_false. intros Hdts.
    apply endsWith_true in Hjs as [_ Hjs], Hdts as [Hlen Hdts].
    simpl in *.
    replace (String.length file - 3)%nat with ((String.length file - 5) + 2)%nat
      in Hjs by lia.
    rewrite slice_add, Hdts in Hjs. discriminate. }
  split; [|exact Hnever].
  unfold ProviderLoader.providerFiles.
  induction files as [|file files IH]; [reflexivity|]. simpl. rewrite IH.
  unfold ProviderLoader.isProviderFile.
  destruct (ProviderLoader.endsWith file ".js") eqn:E; [|reflexivity].
  by rewrite (Hnever file E).
Qed.

(** ** Accumulating, then resolving *)

Lemma answer_firstValue (p : MetadataProvider) (key : string) (pd : ProviderData)
  (d : gmap string (list string)) :
  firstValue p -> pd !! name p = Some d ->
  answer key pd p = ret (Js.firstOf (d !! key)).
Proof.
  intros Hp Hd. unfold answer. rewrite (get_entry _ _ _ Hd). unfold ret.
  by rewrite Hp.
Qed.

Lemma resolveLoop_firstValue (ps : list MetadataProvider) (key : string)
  (pd : ProviderData) :
  Forall firstValue ps ->
  Forall (fun p => is_Some (pd !! name p)) ps ->
  ProviderRegistry.resolveLoop ps key pd
  = ret (firstTruthy (map (fun p => Js.firstOf (default ∅ (pd !! name p) !! key)) ps)).
Proof.
  induction 1 as [|p ps Hp _ IH]; [reflexivity|].
  intros [[d Hd] Hps]%Forall_cons.
  rewrite resolveLoop_cons, (answer_firstValue _ _ _ _ Hp Hd). unfold ret at 1.
  cbn [map firstTruthy]. rewrite Hd. cbv [default from_option id].
  destruct (Js.truthy (Js.firstOf (d !! key))); [reflexivity | by apply IH].
Qed.

Lemma resolve_accumulated (reg : ProviderRegistry.t) (fresh : Metadata.t)
  (calls : list (string * string * string)) (key : string) :
  Metadata.new (Some reg) = ret fresh ->
  Forall firstValue (ProviderRegistry.getProviders reg) ->
  ProviderRegistry.resolveLoop (ProviderRegistry.getProviders reg) key
    (Metadata.providerData (accumulate fresh calls))
  = ret (firstTruthy (map (fun p => head (written (name p) key calls))
                          (ProviderRegistry.getProviders reg))).
Proof.
  intros Hnew Hreg.
  pose proof (accumulate_seeded reg calls fresh (new_seeded _ _ Hnew)) as Hseeded.
  rewrite (resolveLoop_firstValue _ _ _ Hreg Hseeded). do 2 f_equal.
  apply map_ext_in. intros p Hp%list_elem_of_In.
  change (default ∅ (Metadata.providerData (accumulate fresh calls) !! name p))
    with (Metadata.namespace (accumulate fresh calls) (name p)).
  rewrite (accumulate_fresh _ _ _ _ _ Hnew).
  rewrite written_usable.
  - by destruct (written (name p) key calls).
  - apply entry_usable. pose proof (new_seeded _ _ Hnew) as Hfresh.
    unfold seeded in Hfresh. rewrite Forall_forall in Hfresh. by apply Hfresh.
Qed.

(** X16. Accumulating and then resolving: on a fresh accumulator, after any
    run of [addData] calls, the value resolved for a field is the first
    non-empty one among the first values written for that field under each
    provider's name, the providers taken in the order of the registry (they
    answering with the first value of a list).  So it is for a scraped
    document, the calls being those of its dispatched nodes. *)
Theorem resolve_after_accumulate (reg : ProviderRegistry.t) (key : string)
  (fresh : Metadata.t) :
  Metadata.new (Some reg) = ret fresh ->
  Forall firstValue (ProviderRegistry.getProviders reg) ->
  (forall calls,
      Metadata.resolveValue (accumulate fresh calls) key
      = ret (firstTruthy (map (fun p => head (written (name p) key calls))
                              (ProviderRegistry.getProviders reg))))
  /\ (forall document,
      exists m,
        (Scraper.scrape reg (InDocument document)).1 = ret m
        /\ Metadata.resolveValue m key
           = ret (firstTruthy
                    (map (fun p => head (written (name p) key
                                           (omap (dispatchCall reg)
                                                 (phaseNodes document))))
                         (ProviderRegistry.getProviders reg)))).
Proof.
  intros Hnew Hreg. split.
  - intros calls. unfold Metadata.resolveValue, ProviderRegistry.resolveValue.
    rewrite accumulate_registry.
    destruct (new_ret _ _ Hnew) as (_ & -> & _). by apply resolve_accumulated.
  - intros document. rewrite (scrape_record _ _ _ Hnew). eexists. split; [reflexivity|].
    unfold Metadata.resolveValue, ProviderRegistry.resolveValue.
    cbn [Metadata.registry Metadata.providerData].
    by apply resolve_accumulated.
Qed.

(** A page with an Open Graph title, a Twitter title and a title element,
    scraped with the providers of [loadDefaults]: the Open Graph title is
    resolved. *)
Lemma resolve_after_accumulate_witness :
  let registry := ProviderRegistry.new ProviderLoader.loadDefaults in
  let document :=
    mkDocument
      [mkElement (Some "TITLE") [] (Some "Page");
       mkElement (Some "META") [("name", "twitter:title"); ("content", "T")] None;
       mkElement (Some "META") [("property", "og:title"); ("content", "O")] None] in
  exists m,
    (Scraper.scrape registry (InDocument document)).1 = ret m
    /\ Metadata.resolveValue m "title" = ret (Some "O").
Proof.
  intros registry document.
  destruct (Metadata.new (Some registry)) as [err|fresh] eqn:E; [discriminate E|].
  exact (proj2 (resolve_after_accumulate registry "title" fresh E
                  ltac:(repeat constructor)) document).
Defined.
